(** * morphoclass: the [predict-after-extraction] command

    A shallow embedding of [src/morphoclass/console/cmd_predict.py]
    ([predict], [predict_gnn], [predict_cnn], [predict_xgb]) together with
    the parts of Python, pathlib and numpy whose behaviour the command
    relies on.

    Conventions of the embedding:
    - a Python [str] is the list of its code points ([pystr]); comparison,
      [in], [rpartition], [strip] work on code points as in CPython;
    - a resolved [pathlib.Path] is the list of its components below the
      root ([path]);
    - a numpy array (and a torch tensor, once converted) is a shape with
      the row-major list of its entries ([ndarray]);
    - the collaborators that are not part of this file of the repository
      ([torch.load], [MorphologyData.load], [morphoclass.models], the
      models themselves) are the fields of the class [Externals];
    - [predict] runs in a state-and-exception monad over a [World] made of
      the file system, the lines waiting on standard input, the clock and
      the trace of observable events. *)

From stdpp Require Import gmap list sorting strings.

Local Open Scope list_scope.
Set Warnings "-register-all,-abstract-large-number".

Section strings.
Local Open Scope N_scope.

(** ** Python strings *)

(** A character is its Unicode code point. *)
Definition char := N.
Definition pystr := list char.

(** [lit s] is the Python literal written with the (ASCII) characters of [s]. *)
Definition lit (s : string) : pystr :=
  Ascii.N_of_ascii <$> String.list_ascii_of_string s.

(** [startswith p s]: [s.startswith(p)]. *)
Fixpoint startswith (p s : pystr) : bool :=
  match p, s with
  | [], _ => true
  | _ :: _, [] => false
  | a :: p', b :: s' => (a =? b) && startswith p' s'
  end.

(** [contains needle hay]: the Python test [needle in hay] on strings. *)
Fixpoint contains (needle hay : pystr) : bool :=
  startswith needle hay ||
  match hay with
  | [] => false
  | _ :: hay' => contains needle hay'
  end.

(** [endswith s suf]: [s.endswith(suf)]. *)
Definition endswith (s suf : pystr) : bool := startswith (reverse suf) (reverse s).

(** [rpartition_at c s]: when [c] occurs in [s], the text before and the
    text after its last occurrence. *)
Fixpoint rpartition_at (c : char) (s : pystr) : option (pystr * pystr) :=
  match s with
  | [] => None
  | x :: t =>
      match rpartition_at c t with
      | Some (h, tl) => Some (x :: h, tl)
      | None => if x =? c then Some ([], t) else None
      end
  end.

(** [s.rpartition(c)] for a one-character separator: the 3-tuple
    (head, separator, tail), or ("", "", s) when the separator is absent. *)
Definition rpartition (c : char) (s : pystr) : pystr * pystr * pystr :=
  match rpartition_at c s with
  | Some (h, t) => (h, [c], t)
  | None => ([], [], s)
  end.

(** [str.isspace] on one code point (CPython's [_PyUnicode_IsWhitespace]). *)
Definition is_space (c : char) : bool :=
  ((9 <=? c) && (c <=? 13)) || ((28 <=? c) && (c <=? 32))
  || (c =? 133) || (c =? 160) || (c =? 5760)
  || ((8192 <=? c) && (c <=? 8202))
  || (c =? 8232) || (c =? 8233) || (c =? 8239) || (c =? 8287) || (c =? 12288).

Fixpoint lstrip (s : pystr) : pystr :=
  match s with
  | c :: s' => if is_space c then lstrip s' else s
  | [] => []
  end.

(** [s.strip()]. *)
Definition strip (s : pystr) : pystr := reverse (lstrip (reverse (lstrip s))).

(** [s.lower()], exact on the ASCII letters and on the Kelvin sign (the one
    code point outside ASCII whose lowercase form is an ASCII string).  The
    other cased code points are left as they are: their lowercase forms
    contain a code point outside ASCII, so comparing the result with an
    ASCII literal gives what Python gives. *)
Definition lower_char (c : char) : char :=
  if (65 <=? c) && (c <=? 90) then c + 32
  else if c =? 8490 then 107
  else c.
Definition lower (s : pystr) : pystr := lower_char <$> s.

(** Equality test on strings ([==]). *)
Definition pystr_eqb (a b : pystr) : bool := bool_decide (a = b).

(** [sep.join(parts)]. *)
Fixpoint join (sep : pystr) (parts : list pystr) : pystr :=
  match parts with
  | [] => []
  | [p] => p
  | p :: rest => p ++ sep ++ join sep rest
  end.

(** [s.split(c)] for a one-character separator. *)
Fixpoint split_on (c : char) (s : pystr) : list pystr :=
  match s with
  | [] => [[]]
  | x :: t =>
      if x =? c then [] :: split_on c t
      else match split_on c t with
           | [] => [[x]]
           | w :: ws => (x :: w) :: ws
           end
  end.

(** [str(n)] for a non-negative integer. *)
Definition digit_char (d : N) : char := 48 + d.
Fixpoint str_of_N_aux (fuel : nat) (n : N) (acc : pystr) : pystr :=
  match fuel with
  | O => acc
  | S fuel' =>
      let acc' := digit_char (n mod 10) :: acc in
      if n / 10 =? 0 then acc' else str_of_N_aux fuel' (n / 10) acc'
  end.
Definition str_of_nat (n : nat) : pystr :=
  str_of_N_aux (S (N.to_nat (N.log2 (N.of_nat n)))) (N.of_nat n) [].

End strings.

Global Arguments lit : simpl never.
Global Opaque lit.

(** *** The order of strings and of paths *)

(** Lexicographic [<=] on lists, as Python compares strings (by code point)
    and tuples (component by component). *)
Fixpoint lex_leb {A} (eqb leb : A -> A -> bool) (a b : list A) : bool :=
  match a, b with
  | [], _ => true
  | _ :: _, [] => false
  | x :: a', y :: b' => if eqb x y then lex_leb eqb leb a' b' else leb x y
  end.

Definition pystr_leb : pystr -> pystr -> bool := lex_leb N.eqb N.leb.

(** ** Paths *)

(** A resolved absolute path: its components below the root. *)
Definition path := list pystr.

(** [str(p)]. *)
Definition path_str (p : path) : pystr := lit "/" ++ join (lit "/") p.

(** The order of [PurePath.__lt__] / [__le__]: the tuples of parts are
    compared. *)
Definition path_leb : path -> path -> bool := lex_leb pystr_eqb pystr_leb.
Definition path_le (p q : path) : Prop := path_leb p q = true.
Global Instance path_le_dec : RelDecision path_le :=
  fun p q => decide (path_leb p q = true).

(** [d / s] for a path [d] and a string [s]: an absolute [s] replaces [d];
    empty and "." segments of [s] are dropped (a ".." segment is kept as
    it is, as pathlib keeps it). *)
Definition segments (s : pystr) : list pystr :=
  filter (fun seg => seg <> [] /\ seg <> lit ".") (split_on 47%N s).
Definition joinpath (d : path) (s : pystr) : path :=
  if startswith (lit "/") s then segments s else d ++ segments s.

(** [fnmatch] of a file name against the pattern "*.features": the name
    ends with ".features". *)
Definition matches_features (name : pystr) : bool := endswith name (lit ".features").

(** ** Exceptions and fallible computations *)

(** The Python exceptions the command can end with.  [ExternalError] stands
    for whatever a collaborator raises. *)
Inductive exn :=
  | KeyError | AttributeError | AxisError | ValueError | IndexError
  | TypeError | EOFError | UnpicklingError
  | FileNotFoundError | IsADirectoryError | NotADirectoryError
  | ExternalError.

Inductive result (A : Type) :=
  | Ok (a : A)
  | Raise (e : exn).
Arguments Ok {A} a.
Arguments Raise {A} e.

Global Instance result_ret : MRet result := fun A a => Ok a.
Global Instance result_bind : MBind result := fun A B f r =>
  match r with
  | Ok a => f a
  | Raise e => Raise e
  end.
Global Instance result_fmap : FMap result := fun A B f r =>
  match r with
  | Ok a => Ok (f a)
  | Raise e => Raise e
  end.

(** [d[k]] on an optional entry of a dict: [KeyError] when it is absent. *)
Definition getitem {A} (o : option A) : result A :=
  match o with
  | Some a => Ok a
  | None => Raise KeyError
  end.

(** ** Python dicts with string keys *)

(** A dict keeps its keys in insertion order; assigning to a key that is
    present replaces its value in place. *)
Definition pydict (V : Type) := list (pystr * V).

Fixpoint dict_set {V} (k : pystr) (v : V) (d : pydict V) : pydict V :=
  match d with
  | [] => [(k, v)]
  | (k', v') :: d' =>
      if bool_decide (k' = k) then (k, v) :: d' else (k', v') :: dict_set k v d'
  end.

Fixpoint dict_get {V} (k : pystr) (d : pydict V) : option V :=
  match d with
  | [] => None
  | (k', v') :: d' => if bool_decide (k' = k) then Some v' else dict_get k d'
  end.

(** The JSON values the command writes. *)
Inductive json :=
  | JStr (s : pystr)
  | JObj (o : list (pystr * json)).

(** ** numpy arrays *)

(** An array: its shape and its entries in row-major order.  An array is
    well formed when it has as many entries as its shape says. *)
Record ndarray (A : Type) := NdArray { shape : list nat; flat : list A }.
Arguments NdArray {A} shape flat.
Arguments shape {A} _.
Arguments flat {A} _.

Definition size_of (s : list nat) : nat := foldr Nat.mul 1 s.
Definition wf_array {A} (a : ndarray A) : Prop := length (flat a) = size_of (shape a).

(** A numpy scalar (a 0-d array). *)
Definition scalar {A} (x : A) : ndarray A := NdArray [] [x].

(** [np.array(l)] for a list of arrays: the arrays are stacked along a new
    first axis; the empty list gives the 1-d array of shape (0,); arrays of
    different shapes are refused ([ValueError], as numpy does since 1.24). *)
Definition np_array {A} (l : list (ndarray A)) : result (ndarray A) :=
  match l with
  | [] => Ok (NdArray [0] [])
  | a :: _ =>
      if forallb (fun b => bool_decide (shape b = shape a)) l
      then Ok (NdArray (length l :: shape a) (concat (flat <$> l)))
      else Raise ValueError
  end.

(** [np.concatenate(l)] (along axis 0): the list must not be empty, no
    array may be 0-d, and the shapes must agree after the first axis. *)
Definition np_concatenate {A} (l : list (ndarray A)) : result (ndarray A) :=
  match l with
  | [] => Raise ValueError
  | a :: _ =>
      match shape a with
      | [] => Raise ValueError
      | _ :: rest =>
          if forallb (fun b => bool_decide (tail (shape b) = rest /\ shape b <> [])) l
          then Ok (NdArray (sum_list ((fun b => hd 0 (shape b)) <$> l) :: rest)
                           (concat (flat <$> l)))
          else Raise ValueError
      end
  end.

(** [a.reshape(s)]: the number of elements must not change. *)
Definition reshape {A} (a : ndarray A) (s : list nat) : result (ndarray A) :=
  if bool_decide (size_of (shape a) = size_of s) then Ok (NdArray s (flat a))
  else Raise ValueError.

(** [a[i]] along the first axis (without the bound check). *)
Definition item {A} (a : ndarray A) (rest : list nat) (i : nat) : ndarray A :=
  NdArray rest (take (size_of rest) (drop (i * size_of rest) (flat a))).

(** [a[0]]. *)
Definition first_item {A} (a : ndarray A) : result (ndarray A) :=
  match shape a with
  | [] => Raise IndexError
  | n :: rest => if bool_decide (n = 0) then Raise IndexError else Ok (item a rest 0)
  end.

(** [iter(a)]: the items along the first axis; a 0-d array is not iterable. *)
Definition items {A} (a : ndarray A) : result (list (ndarray A)) :=
  match shape a with
  | [] => Raise TypeError
  | n :: rest => Ok (item a rest <$> seq 0 n)
  end.

Section argmax.
Context {A : Type} (le : A -> A -> bool) (isnan : A -> bool).

(** numpy's scan for the index of the maximum of a run of floats: the
    candidate is replaced when the next entry is not [<=] it, and a NaN
    ends the scan. *)
Fixpoint argmax_from (best : A) (besti i : nat) (l : list A) : nat :=
  match l with
  | [] => besti
  | x :: l' =>
      if le x best then argmax_from best besti (S i) l'
      else if isnan x then i
      else argmax_from x i (S i) l'
  end.

Definition argmax_list (l : list A) : nat :=
  match l with
  | [] => 0
  | x :: l' => if isnan x then 0 else argmax_from x 0 1 l'
  end.

(** The entries [a[i, 0, j], a[i, 1, j], ...] of an array whose shape starts
    with [(n, c)] and has [r] entries per index pair. *)
Definition lane (a : ndarray A) (c r i j : nat) : list A :=
  omap (fun k => flat a !! ((i * c + k) * r + j)) (seq 0 c).

(** [a.argmax(axis=1)]: the array needs two axes at least ([AxisError]) and
    a non-empty axis 1 ([ValueError]); the result drops axis 1. *)
Definition argmax_axis1 (a : ndarray A) : result (ndarray Z) :=
  match shape a with
  | n :: c :: rest =>
      if bool_decide (c = 0) then Raise ValueError
      else
        let r := size_of rest in
        Ok (NdArray (n :: rest)
              (i ← seq 0 n; j ← seq 0 r; [Z.of_nat (argmax_list (lane a c r i j))]))
  | _ => Raise AxisError
  end.

(** [k] is the index of the first maximum of [row]: no entry is greater
    than the [k]-th, which is greater than every entry before it. *)
Definition first_max (row : list A) (k : nat) : Prop :=
  exists x, row !! k = Some x
    /\ (forall j y, row !! j = Some y -> le y x = true)
    /\ (forall j y, j < k -> row !! j = Some y -> le x y = false).

(** The [i]-th row of a 2-d array with [c] columns. *)
Definition row_of (a : ndarray A) (c i : nat) : list A :=
  take c (drop (i * c) (flat a)).

End argmax.

(** ** The collaborators *)

(** A checkpoint is the dict [torch.load] returns.  The command reads the
    keys "model_class", "metadata" (with its key "timestamp"),
    "model_params" and ["all"]["model"]; each may be absent. *)
Record Checkpoint (Params Stored : Type) := {
  ck_model_class : option pystr;
  ck_metadata : option (option pystr);
  ck_model_params : option Params;
  ck_all_model : option Stored;
}.
Arguments ck_model_class {Params Stored} _.
Arguments ck_metadata {Params Stored} _.
Arguments ck_model_params {Params Stored} _.
Arguments ck_all_model {Params Stored} _.

(** What the command takes from the code around it. *)
Class Externals := {
  (** the floating-point entries of tensors, their [<=] and NaN test *)
  Entry : Type;
  entry_le : Entry -> Entry -> bool;
  entry_isnan : Entry -> bool;
  (** the bytes of a binary file *)
  Blob : Type;
  (** [MorphologyData]: a sample, [str(sample.path)] and [sample.image] *)
  Sample : Type;
  sample_path : Sample -> pystr;
  sample_image : Sample -> ndarray Entry;
  (** [MorphologyData.load(path)] on the bytes found at [path] *)
  MorphologyData_load : path -> Blob -> result Sample;
  (** the [y_to_label] dict a [MorphologyDataset] derives from its samples *)
  guess_y_to_label : list Sample -> gmap Z pystr;
  (** checkpoints: model parameters, and what ["all"]["model"] stores
      (a state dict, or the fitted XGBoost model itself) *)
  Params : Type;
  Stored : Type;
  torch_load : Blob -> result (Checkpoint Params Stored);
  (** [morphoclass.models]: its attributes, and the models they build *)
  ModelClass : Type;
  Model : Type;
  models_getattr : pystr -> option ModelClass;
  model_init : ModelClass -> Params -> result Model;
  load_state_dict : Model -> Stored -> result Model;
  model_eval : Model -> Model;
  (** [model(x)]: the output and the model after the call, for a sample
      (GNN) or an image tensor (CNN) *)
  forward_sample : Model -> Sample -> result (ndarray Entry * Model);
  forward_image : Model -> ndarray Entry -> result (ndarray Entry * Model);
  (** [model.predict(x)] of a fitted XGBoost model *)
  xgb_predict : Stored -> ndarray Entry -> result (ndarray Z);
}.

Section predict.
Context `{Externals}.

Definition checkpoint := Checkpoint Params Stored.

(** Modelled from the spec: [MorphologyDataset] is an excluded collaborator;
    it is the dataset "built from" the list of samples: [dataset.data] is
    that list, iterating the dataset yields its samples in order, and
    [dataset.y_to_label] maps class numbers to labels. *)
Record Dataset := {
  ds_data : list Sample;
  ds_y_to_label : gmap Z pystr;
}.
Definition MorphologyDataset (data : list Sample) : Dataset :=
  {| ds_data := data; ds_y_to_label := guess_y_to_label data |}.
Definition ds_iter (dataset : Dataset) : list Sample := ds_data dataset.
Definition ds_len (dataset : Dataset) : nat := length (ds_data dataset).

(** *** The three prediction routines *)

(** [[model(x) for x in xs]] with the model's state threaded through. *)
Fixpoint run_model {X} (fwd : Model -> X -> result (ndarray Entry * Model))
    (model : Model) (xs : list X) : result (list (ndarray Entry)) :=
  match xs with
  | [] => Ok []
  | x :: xs' =>
      '(y, model') ← fwd model x;
      ys ← run_model fwd model' xs';
      Ok (y :: ys)
  end.

Definition predict_gnn (dataset : Dataset) (ck : checkpoint) : result (ndarray Entry) :=
  model_class ← getitem (ck_model_class ck);
  model_cls ← match models_getattr (rpartition 46%N model_class).2 with
              | Some cls => Ok cls
              | None => Raise AttributeError
              end;
  model_params ← getitem (ck_model_params ck);
  model ← model_init model_cls model_params;
  state ← getitem (ck_all_model ck);
  model ← load_state_dict model state;
  let model := model_eval model in
  logits ← run_model forward_sample model (ds_iter dataset);
  np_array logits.

Definition predict_cnn (dataset : Dataset) (ck : checkpoint) : result (ndarray Entry) :=
  model_class ← getitem (ck_model_class ck);
  model_cls ← match models_getattr (rpartition 46%N model_class).2 with
              | Some cls => Ok cls
              | None => Raise AttributeError
              end;
  model_params ← getitem (ck_model_params ck);
  model ← model_init model_cls model_params;
  state ← getitem (ck_all_model ck);
  model ← load_state_dict model state;
  logits ← run_model forward_image model (sample_image <$> ds_iter dataset);
  if bool_decide (0 < length logits) then np_concatenate logits
  else np_array logits.

Definition predict_xgb (dataset : Dataset) (ck : checkpoint) : result (list (ndarray Z)) :=
  model ← getitem (ck_all_model ck);
  mapM (fun sample =>
          x ← reshape (sample_image sample) [1; 10000];
          y ← xgb_predict model x;
          first_item y)
       (ds_iter dataset).

(** *** The world *)

Inductive content :=
  | Binary (b : Blob)
  | Json (j : json).

Inductive node :=
  | Dir
  | File (c : content).

Inductive routine := Gnn | Cnn | Xgb.

(** What a run does that can be observed from outside. *)
Inductive event :=
  | Echo (msg : pystr)                 (* click.secho / click.echo *)
  | ReadLine (response : pystr)        (* input() *)
  | LoadCheckpoint (p : path)          (* torch.load *)
  | LoadFeatures (p : path)            (* MorphologyData.load *)
  | Invoke (r : routine) (dataset : Dataset) (ck : checkpoint)
  | WriteFile (p : path).              (* open(p, "w") and json.dump *)

Record World := {
  fs : gmap path node;
  stdin : list pystr;
  clock : pystr;        (* datetime.now().strftime("%Y-%m-%d_%H-%M-%S") *)
  trace : list event;
}.

Definition M (A : Type) : Type := World -> result A * World.

Global Instance M_ret : MRet M := fun A a w => (Ok a, w).
Global Instance M_bind : MBind M := fun A B f m w =>
  match m w with
  | (Ok a, w') => f a w'
  | (Raise e, w') => (Raise e, w')
  end.

Definition lift {A} (r : result A) : M A := fun w => (r, w).

Definition log (e : event) : M unit := fun w =>
  (Ok (), {| fs := fs w; stdin := stdin w; clock := clock w; trace := trace w ++ [e] |}).

Definition secho (msg : pystr) : M unit := log (Echo msg).

Definition now : M pystr := fun w => (Ok (clock w), w).

(** [input()]: the next line of standard input, [EOFError] at its end. *)
Definition input : M pystr := fun w =>
  match stdin w with
  | [] => (Raise EOFError, w)
  | line :: rest =>
      (Ok line, {| fs := fs w; stdin := rest; clock := clock w;
                   trace := trace w ++ [ReadLine line] |})
  end.

Definition is_dir (files : gmap path node) (p : path) : bool :=
  bool_decide (p = []) ||
  match files !! p with
  | Some Dir => true
  | _ => false
  end.

(** [p.exists()]. *)
Definition fs_exists (files : gmap path node) (p : path) : bool :=
  bool_decide (p = []) || bool_decide (is_Some (files !! p)).
Definition path_exists (p : path) : M bool := fun w => (Ok (fs_exists (fs w) p), w).

(** The name of [p] when [p] is an entry of the directory [dir]. *)
Definition child_name (dir p : path) : option pystr :=
  match drop (length dir) p with
  | [name] => if bool_decide (take (length dir) p = dir) then Some name else None
  | _ => None
  end.

(** [dir.glob("*.features")]: the entries of [dir] whose name matches, in
    the order the directory scan gives them. *)
Definition glob_match (dir p : path) : bool :=
  match child_name dir p with
  | Some name => matches_features name
  | None => false
  end.
Definition glob_features (files : gmap path node) (dir : path) : list path :=
  if is_dir files dir then
    filter (fun p => glob_match dir p = true) (elements (dom files))
  else [].

(** [sorted(paths)]. *)
Definition sorted (paths : list path) : list path := merge_sort path_le paths.

(** Reading the binary file at [p]. *)
Definition read_binary (p : path) : M Blob := fun w =>
  match fs w !! p with
  | Some (File (Binary b)) => (Ok b, w)
  | Some (File (Json _)) => (Raise UnpicklingError, w)
  | Some Dir => (Raise IsADirectoryError, w)
  | None => (if bool_decide (p = []) then Raise IsADirectoryError
             else Raise FileNotFoundError, w)
  end.

(** [torch.load(p)]. *)
Definition torch_load_file (p : path) : M checkpoint :=
  _ ← log (LoadCheckpoint p);
  b ← read_binary p;
  lift (torch_load b).

(** [MorphologyData.load(p)]. *)
Definition load_features (p : path) : M Sample :=
  _ ← log (LoadFeatures p);
  b ← read_binary p;
  lift (MorphologyData_load p b).

(** [with open(p, "w") as fp: json.dump(j, fp)]: the directory of [p] must
    exist and [p] must not be a directory. *)
Definition write_json (p : path) (j : json) : M unit := fun w =>
  if is_dir (fs w) p then (Raise IsADirectoryError, w)
  else if is_dir (fs w) (removelast p) then
    (Ok (), {| fs := <[p := File (Json j)]> (fs w); stdin := stdin w;
               clock := clock w; trace := trace w ++ [WriteFile p] |})
  else if bool_decide (is_Some (fs w !! removelast p)) then (Raise NotADirectoryError, w)
  else (Raise FileNotFoundError, w).

(** *** The command *)

(** How a run of [predict] that raises nothing ends: at the [return] after
    "Stopping.", at the [return] after "Model not recognized", or at the
    end of the function. *)
Inductive outcome := Stopped | NotRecognized | Done.

(** [predictions] is a numpy array in the GNN and CNN branches and a Python
    list in the XGB branch. *)
Inductive Predictions :=
  | PArray (a : ndarray Z)
  | PList (l : list (ndarray Z)).

Definition iter_predictions (predictions : Predictions) : result (list (ndarray Z)) :=
  match predictions with
  | PArray a => items a
  | PList l => Ok l
  end.

Definition check_mark : pystr := [10004%N].
Definition quote_mark : pystr := [34%N].
Global Opaque check_mark quote_mark.

(** The messages whose text the properties below refer to. *)
Definition msg_overwrite (results_path : path) : pystr :=
  lit "Results file " ++ quote_mark ++ path_str results_path ++ quote_mark
  ++ lit " exists, overwrite? (y/[n]) ".
Definition msg_not_recognized (model_class : pystr) : pystr :=
  lit "Model not recognized: " ++ model_class ++ lit ". Stopping.".

(** [dataset.y_to_label[sample_pred]]: a key that is an array with axes is
    not hashable ([TypeError]); a class without label is a [KeyError]. *)
Definition lookup_label (y_to_label : gmap Z pystr) (sample_pred : ndarray Z) : result pystr :=
  match shape sample_pred, flat sample_pred with
  | [], [k] => getitem (y_to_label !! k)
  | _, _ => Raise TypeError
  end.

(** The loop over [zip(dataset.data, predictions)] filling [prediction_labels]. *)
Fixpoint label_loop (y_to_label : gmap Z pystr) (pairs : list (Sample * ndarray Z))
    (prediction_labels : pydict json) : result (pydict json) :=
  match pairs with
  | [] => Ok prediction_labels
  | (sample, sample_pred) :: pairs' =>
      let sample_path := sample_path sample in
      pred_label ← lookup_label y_to_label sample_pred;
      label_loop y_to_label pairs' (dict_set sample_path (JStr pred_label) prediction_labels)
  end.

(** The [results] dict of the report. *)
Definition report (prediction_labels : pydict json) (checkpoint_file : path)
    (model_class : pystr) : pydict json :=
  dict_set (lit "model") (JStr model_class)
    (dict_set (lit "checkpoint_path") (JStr (path_str checkpoint_file))
       (dict_set (lit "predictions") (JObj prediction_labels) [])).

(** The export step: from "Exporting results..." to the end of [predict]. *)
Definition export_results (dataset : Dataset) (predictions : Predictions)
    (checkpoint_file : path) (model_class : pystr) (results_path : path) : M outcome :=
  _ ← secho (check_mark ++ lit " Exporting results...");
  preds ← lift (iter_predictions predictions);
  prediction_labels ←
    lift (label_loop (ds_y_to_label dataset) (zip (ds_data dataset) preds) []);
  _ ← write_json results_path (JObj (report prediction_labels checkpoint_file model_class));
  _ ← secho (check_mark ++ lit " Done.");
  mret Done.

(** The dispatch on [model_class]: the predictions of the routine chosen,
    or [None] after reporting a model that is not recognized. *)
Definition compute_predictions (dataset : Dataset) (ck : checkpoint)
    (model_class : pystr) : M (option Predictions) :=
  if contains (lit "ManNet") model_class then
    _ ← log (Invoke Gnn dataset ck);
    logits ← lift (predict_gnn dataset ck);
    predictions ← lift (argmax_axis1 entry_le entry_isnan logits);
    mret (Some (PArray predictions))
  else if contains (lit "CNN") model_class then
    _ ← log (Invoke Cnn dataset ck);
    logits ← lift (predict_cnn dataset ck);
    predictions ← lift (argmax_axis1 entry_le entry_isnan logits);
    mret (Some (PArray predictions))
  else if contains (lit "XGB") model_class then
    _ ← log (Invoke Xgb dataset ck);
    predictions ← lift (predict_xgb dataset ck);
    mret (Some (PList predictions))
  else
    _ ← secho (msg_not_recognized model_class);
    mret None.

(** Loading the samples: the matching entries of the features directory,
    in sorted order. *)
Definition load_data (features_dir : path) : M (list Sample) := fun w =>
  mapM load_features (sorted (glob_features (fs w) features_dir)) w.

(** [predict] from "Loading checkpoint..." on. *)
Definition predict_body (features_dir checkpoint_file results_path : path) : M outcome :=
  _ ← secho (check_mark ++ lit " Loading checkpoint...");
  ck ← torch_load_file checkpoint_file;
  model_class ← lift (getitem (ck_model_class ck));
  _ ← secho (lit "Model       : " ++ model_class);
  _ ← match ck_metadata ck return M unit with
      | Some metadata =>
          timestamp ← lift (getitem metadata);
          secho (lit "Created on  : " ++ timestamp)
      | None => mret ()
      end;
  _ ← secho (check_mark ++ lit " Loading data...");
  data ← load_data features_dir;
  let dataset := MorphologyDataset data in
  _ ← secho (lit "> Dataset length: " ++ str_of_nat (ds_len dataset));
  _ ← secho (check_mark ++ lit " Computing predictions...");
  predictions ← compute_predictions dataset ck model_class;
  match predictions with
  | None => mret NotRecognized
  | Some predictions =>
      export_results dataset predictions checkpoint_file model_class results_path
  end.

(** The path of the report. *)
Definition results_path_of (output_dir : path) (results_name : pystr) : path :=
  joinpath output_dir (results_name ++ lit ".json").

(** [predict(features_dir, checkpoint_file, output_dir, results_name)], the
    three paths resolved. *)
Definition predict (features_dir checkpoint_file output_dir : path)
    (results_name : option pystr) : M outcome :=
  results_name ← match results_name with
                 | None => timestamp ← now; mret (lit "results_" ++ timestamp)
                 | Some name => mret name
                 end;
  let results_path := results_path_of output_dir results_name in
  _ ← secho (lit "Features Dir : " ++ path_str features_dir);
  _ ← secho (lit "Output file  : " ++ path_str results_path);
  _ ← secho (lit "Checkpoint   : " ++ path_str checkpoint_file);
  present ← path_exists results_path;
  if (present : bool) then
    _ ← secho (msg_overwrite results_path);
    response ← input;
    if negb (pystr_eqb (lower (strip response)) (lit "y")) then
      _ ← secho (lit "Stopping.");
      mret Stopped
    else
      _ ← secho (lit "You chose to overwrite, proceeding...");
      predict_body features_dir checkpoint_file results_path
  else predict_body features_dir checkpoint_file results_path.

(** The click command: [cli] hands its options to [predict]. *)
Definition cli := predict.

(** *** Notions used to state the properties of the command *)

(** The world after more events, and with other lines left on its input. *)
Definition extend (w : World) (t : list event) : World :=
  {| fs := fs w; stdin := stdin w; clock := clock w; trace := trace w ++ t |}.
Definition with_stdin (w : World) (lines : list pystr) : World :=
  {| fs := fs w; stdin := lines; clock := clock w; trace := trace w |}.

(** [sample] is what [MorphologyData.load] makes of the file at [p]. *)
Definition loaded_from (files : gmap path node) (p : path) (sample : Sample) : Prop :=
  exists b, files !! p = Some (File (Binary b)) /\ MorphologyData_load p b = Ok sample.

(** The inputs of a run load: the checkpoint file holds the checkpoint
    [ck] of model class [model_class] (with a timestamp when it has
    metadata), and the matching feature files, in sorted order, load as
    the samples [data]. *)
Definition inputs_load (files : gmap path node) (features_dir checkpoint_file : path)
    (ck : checkpoint) (model_class : pystr) (data : list Sample) : Prop :=
  (exists b, files !! checkpoint_file = Some (File (Binary b)) /\ torch_load b = Ok ck)
  /\ ck_model_class ck = Some model_class
  /\ ck_metadata ck <> Some None
  /\ Forall2 (loaded_from files) (sorted (glob_features files features_dir)) data.

(** The three lines [predict] starts with. *)
Definition headers (features_dir checkpoint_file results_path : path) : list event :=
  [Echo (lit "Features Dir : " ++ path_str features_dir);
   Echo (lit "Output file  : " ++ path_str results_path);
   Echo (lit "Checkpoint   : " ++ path_str checkpoint_file)].

(** The calls of prediction routines in a run of events, and the files
    written, in order. *)
Definition invocations (t : list event) : list (routine * Dataset * checkpoint) :=
  omap (fun e => match e with
                 | Invoke r dataset ck => Some (r, dataset, ck)
                 | _ => None
                 end) t.
Definition writes (t : list event) : list path :=
  omap (fun e => match e with
                 | WriteFile p => Some p
                 | _ => None
                 end) t.
Definition loads (t : list event) : list path :=
  omap (fun e => match e with
                 | LoadCheckpoint p | LoadFeatures p => Some p
                 | _ => None
                 end) t.

(** The routine a model class selects: the three substring tests in their
    order. *)
Definition select_routine (model_class : pystr) : option routine :=
  if contains (lit "ManNet") model_class then Some Gnn
  else if contains (lit "CNN") model_class then Some Cnn
  else if contains (lit "XGB") model_class then Some Xgb
  else None.

(** What the routine [r] makes the predictions of a dataset: the argmax
    along axis 1 of the logits for the two neural routines, the list
    [predict_xgb] returns as it is. *)
Definition predictions_of (r : routine) (dataset : Dataset) (ck : checkpoint)
    : result Predictions :=
  match r with
  | Gnn => logits ← predict_gnn dataset ck;
           PArray <$> argmax_axis1 entry_le entry_isnan logits
  | Cnn => logits ← predict_cnn dataset ck;
           PArray <$> argmax_axis1 entry_le entry_isnan logits
  | Xgb => PList <$> predict_xgb dataset ck
  end.

(** The steps of [predict] once the checkpoint and the data are loaded:
    the dispatch, then the export. *)
Definition dispatch_and_export (dataset : Dataset) (ck : checkpoint) (model_class : pystr)
    (checkpoint_file results_path : path) : M outcome :=
  predictions ← compute_predictions dataset ck model_class;
  match predictions with
  | None => mret NotRecognized
  | Some predictions =>
      export_results dataset predictions checkpoint_file model_class results_path
  end.

(** The dict [prediction_labels] the export loop builds from the
    predictions. *)
Definition labels_of (dataset : Dataset) (predictions : Predictions)
    : result (pydict json) :=
  preds ← iter_predictions predictions;
  label_loop (ds_y_to_label dataset) (zip (ds_data dataset) preds) [].

(** The part of a dotted name after its last dot (the whole name when it
    has no dot). *)
Definition after_last_dot (s : pystr) : pystr := default [] (last (split_on 46%N s)).

(** The model a checkpoint describes: the attribute of [morphoclass.models]
    named by the last part of "model_class", instantiated with
    "model_params", with the weights stored under ["all"]["model"]. *)
Definition rebuild_model (ck : checkpoint) : result Model :=
  model_class ← getitem (ck_model_class ck);
  model_cls ← match models_getattr (after_last_dot model_class) with
              | Some cls => Ok cls
              | None => Raise AttributeError
              end;
  model_params ← getitem (ck_model_params ck);
  model ← model_init model_cls model_params;
  state ← getitem (ck_all_model ck);
  load_state_dict model state.

End predict.

(** ** A small instance of the collaborators *)

(** Integer entries, samples that are a path with an image, models whose
    output on an image is its first two entries (one score per class), and
    an XGBoost model that predicts the first entry of its input. *)
Module Demo.

Inductive demo_blob :=
  | FeatureBytes (sample_path : pystr) (image : ndarray Z)
  | CheckpointBytes (ck : Checkpoint unit unit).

Definition demo_load (p : path) (b : demo_blob) : result (pystr * ndarray Z) :=
  match b with
  | FeatureBytes sp img => Ok (sp, img)
  | CheckpointBytes _ => Raise UnpicklingError
  end.

Definition demo_torch_load (b : demo_blob) : result (Checkpoint unit unit) :=
  match b with
  | CheckpointBytes ck => Ok ck
  | FeatureBytes _ _ => Raise UnpicklingError
  end.

Definition demo_getattr (name : pystr) : option unit :=
  if bool_decide (name = lit "ManNet" \/ name = lit "CNN") then Some () else None.

Definition demo_labels : gmap Z pystr :=
  {[ 0%Z := lit "L5_TPC_A"; 1%Z := lit "L5_UPC" ]}.

#[export] Instance demo : Externals := {|
  Entry := Z;
  entry_le := Z.leb;
  entry_isnan := fun _ => false;
  Blob := demo_blob;
  Sample := pystr * ndarray Z;
  sample_path := fst;
  sample_image := snd;
  MorphologyData_load := demo_load;
  guess_y_to_label := fun _ => demo_labels;
  Params := unit;
  Stored := unit;
  torch_load := demo_torch_load;
  ModelClass := unit;
  Model := unit;
  models_getattr := demo_getattr;
  model_init := fun _ _ => Ok ();
  load_state_dict := fun m _ => Ok m;
  model_eval := fun m => m;
  forward_sample := fun m s => Ok (NdArray [2] (take 2 (flat (snd s))), m);
  forward_image := fun m img => Ok (NdArray [1; 2] (take 2 (flat img)), m);
  xgb_predict := fun _ x => Ok (NdArray [1] (take 1 (flat x)));
|}.

(** A checkpoint of the given model class, with every key present. *)
Definition demo_ck (model_class : string) : Checkpoint unit unit :=
  {| ck_model_class := Some (lit model_class);
     ck_metadata := Some (Some (lit "2022-01-01"));
     ck_model_params := Some ();
     ck_all_model := Some () |}.

(** An image of 10000 entries whose first two are [a] and [b]. *)
Definition demo_image (a b : Z) : ndarray Z :=
  NdArray [1; 100; 100] (a :: b :: replicate 9998 0%Z).

Definition features_dir : path := [lit "feat"].
Definition output_dir : path := [lit "out"].
Definition checkpoint_file : path := [lit "ck.pt"].

Definition feature_file (nb : string * demo_blob) : path * node :=
  (features_dir ++ [lit nb.1], File (Binary nb.2)).

(** A world whose features directory holds the given files. *)
Definition demo_world (model_class : string) (features : list (string * demo_blob))
    (lines : list pystr) : World :=
  {| fs := list_to_map
             ([(features_dir, Dir); (output_dir, Dir);
               (checkpoint_file, File (Binary (CheckpointBytes (demo_ck model_class))))]
              ++ (feature_file <$> features));
     stdin := lines;
     clock := lit "2022-02-02_10-00-00";
     trace := [] |}.

Definition results_path : path := output_dir ++ [lit "res.json"].

(** The same world with one more file. *)
Definition with_file (w : World) (p : path) (n : node) : World :=
  {| fs := <[p := n]> (fs w); stdin := stdin w; clock := clock w; trace := trace w |}.

(** Two morphologies, of class 0 and of class 1. *)
Definition sample0 : pystr * ndarray Z := (lit "m0.swc", demo_image 3 2).
Definition sample1 : pystr * ndarray Z := (lit "m1.swc", demo_image 1 5).
Definition two_files : list (string * demo_blob) :=
  [("b.features", FeatureBytes (lit "m1.swc") (demo_image 1 5));
   ("a.features", FeatureBytes (lit "m0.swc") (demo_image 3 2))].


Definition dataset01 : Dataset := MorphologyDataset (H:=demo) [sample0; sample1].

Definition world_cnn : World := demo_world "morphoclass.models.CNN" two_files [].
Definition world_unknown : World := demo_world "sklearn.RandomForest" two_files [].
Definition world_cnn_empty : World := demo_world "morphoclass.models.CNN" [] [].
Definition world_existing : World :=
  with_file (demo_world "morphoclass.models.CNN" two_files [lit "n"])
            results_path (File (Json (JObj []))).

(** A run of the command in one of these worlds. *)
Definition demo_run (w : World) : result outcome * World :=
  predict features_dir checkpoint_file output_dir (Some (lit "res")) w.

End Demo.

(** One step of unfolding a routine: the binds are reduced, the numpy
    functions and the string functions are left folded. *)
Ltac rebuild_step :=
  cbn -[np_array np_concatenate run_model rpartition after_last_dot]; try done.

(** ** The end of a run *)

Section endings.
Context `{Externals}.



End endings.

(** Further small worlds. *)
Module Cases.
Import Demo.




(** The CNN world with a directory named like a feature file. *)
Definition bad_entry : path := features_dir ++ [lit "x.features"].
Definition world_bad_entry : World := with_file world_cnn bad_entry Dir.


End Cases.

(** * Facts about the embedding *)

(** ** Strings *)

Lemma startswith_spec p s : startswith p s = true <-> exists t, s = p ++ t.
Proof.
  revert s. induction p as [|a p IH]; intros s; simpl.
  - split; [eauto|done].
  - destruct s as [|b s].
    + split; [done|]. intros [t Ht]. discriminate.
    + rewrite andb_true_iff, N.eqb_eq, IH. split.
      * intros [-> [t ->]]. eauto.
      * intros [t Ht]. injection Ht as -> ->. eauto.
Qed.

Lemma contains_spec needle hay :
  contains needle hay = true <-> exists a b, hay = a ++ needle ++ b.
Proof.
  induction hay as [|c hay IH]; simpl; rewrite orb_true_iff, startswith_spec.
  - split.
    + intros [[t Ht]|?]; [|done]. exists [], t. done.
    + intros (a & b & Hab). left. destruct a; [|done]. eauto.
  - rewrite IH. split.
    + intros [[t Ht]|(a & b & ->)].
      * exists [], t. done.
      * exists (c :: a), b. done.
    + intros (a & b & Hab). destruct a as [|c' a]; simpl in Hab.
      * left. eauto.
      * right. injection Hab as -> ->. eauto.
Qed.

Lemma endswith_spec s suf : endswith s suf = true <-> exists t, s = t ++ suf.
Proof.
  unfold endswith. rewrite startswith_spec. split.
  - intros [t Ht]. exists (reverse t).
    apply (inj reverse). by rewrite reverse_app, reverse_involutive.
  - intros [t ->]. exists (reverse t). by rewrite reverse_app.
Qed.

Lemma rpartition_at_None c s : rpartition_at c s = None <-> c ∉ s.
Proof.
  induction s as [|x s IH]; simpl.
  - split; [intros _; apply not_elem_of_nil|done].
  - destruct (rpartition_at c s) as [[h t]|].
    + split; [done|]. intros Hn. exfalso.
      assert (c ∉ s) as Hs by (intros ?; apply Hn; by right).
      apply IH in Hs. done.
    + destruct (N.eqb_spec x c) as [->|Hne].
      * split; [done|]. intros Hn. exfalso. apply Hn. by left.
      * split; [|done]. intros _ Hin. apply elem_of_cons in Hin as [->|Hin]; [done|].
        by apply IH in Hin.
Qed.

Lemma rpartition_at_Some c s h t :
  rpartition_at c s = Some (h, t) -> s = h ++ c :: t /\ c ∉ t.
Proof.
  revert h. induction s as [|x s IH]; intros h; simpl; [done|].
  destruct (rpartition_at c s) as [[h' t']|] eqn:E.
  - intros [= <- <-]. destruct (IH h' eq_refl) as [-> Ht]. done.
  - destruct (N.eqb_spec x c) as [->|Hne]; [|done].
    intros [= <- <-]. split; [done|]. by apply rpartition_at_None.
Qed.

(** The responses that [lower] maps to "y". *)
Lemma lower_char_y c : lower_char c = 121%N <-> c = 121%N \/ c = 89%N.
Proof.
  unfold lower_char.
  destruct (N.leb_spec 65 c), (N.leb_spec c 90); cbn [andb];
    try destruct (N.eqb_spec c 8490); lia.
Qed.

Lemma lower_is_y s : lower s = lit "y" <-> s = lit "y" \/ s = lit "Y".
Proof.
  assert (lit "y" = [121%N]) as -> by (vm_compute; reflexivity).
  assert (lit "Y" = [89%N]) as -> by (vm_compute; reflexivity).
  unfold lower. destruct s as [|c [|c' s]]; cbn.
  - split; [done|by intros [?|?]].
  - split.
    + intros [= Hc]. apply lower_char_y in Hc as [->| ->]; auto.
    + intros [[= ->]|[= ->]]; reflexivity.
  - split; [done|by intros [?|?]].
Qed.

(** [split_on] and the last dot. *)
Lemma split_on_last c s :
  match rpartition_at c s with
  | None => split_on c s = [s]
  | Some (h, t) => exists w ws, split_on c s = w :: ws ++ [t]
  end.
Proof.
  induction s as [|x s IH]; simpl; [done|].
  destruct (rpartition_at c s) as [[h t]|].
  - destruct IH as (w & ws & ->).
    destruct (x =? c)%N; [by exists [], (w :: ws)|by exists (x :: w), ws].
  - rewrite IH. destruct (x =? c)%N; [by exists [], []|done].
Qed.

Lemma after_last_dot_rpartition s :
  after_last_dot s = (rpartition 46%N s).2.
Proof.
  unfold after_last_dot, rpartition.
  pose proof (split_on_last 46%N s) as Hs.
  destruct (rpartition_at 46%N s) as [[h t]|].
  - destruct Hs as (w & ws & ->). by rewrite last_cons, last_snoc.
  - by rewrite Hs.
Qed.

(** ** The order of paths *)

Section lex.
Context {A : Type} (eqb leb : A -> A -> bool).
Hypothesis eqb_eq : forall x y, eqb x y = true <-> x = y.
Hypothesis leb_total : forall x y, leb x y = true \/ leb y x = true.
Hypothesis leb_trans : forall x y z, leb x y = true -> leb y z = true -> leb x z = true.
Hypothesis leb_antisym : forall x y, leb x y = true -> leb y x = true -> x = y.

Lemma eqb_refl' x : eqb x x = true.
Proof. by apply eqb_eq. Qed.

Lemma lex_leb_total a b : lex_leb eqb leb a b = true \/ lex_leb eqb leb b a = true.
Proof.
  revert b. induction a as [|x a IH]; intros [|y b]; simpl; auto.
  destruct (eqb x y) eqn:E.
  - apply eqb_eq in E as ->. rewrite eqb_refl'. apply IH.
  - destruct (eqb y x) eqn:E'; [|apply leb_total].
    apply eqb_eq in E' as ->. rewrite eqb_refl' in E. done.
Qed.

Lemma lex_leb_antisym a b :
  lex_leb eqb leb a b = true -> lex_leb eqb leb b a = true -> a = b.
Proof.
  revert b. induction a as [|x a IH]; intros [|y b]; simpl; try done.
  destruct (eqb x y) eqn:E.
  - apply eqb_eq in E as ->. rewrite eqb_refl'. intros. f_equal. by apply IH.
  - destruct (eqb y x) eqn:E'.
    + apply eqb_eq in E' as ->. rewrite eqb_refl' in E. done.
    + intros H1 H2. rewrite (leb_antisym _ _ H1 H2), eqb_refl' in E. done.
Qed.

Lemma lex_leb_trans a b c :
  lex_leb eqb leb a b = true -> lex_leb eqb leb b c = true -> lex_leb eqb leb a c = true.
Proof.
  revert b c. induction a as [|x a IH]; intros [|y b] [|z c]; simpl; try done.
  destruct (eqb x y) eqn:Exy.
  - apply eqb_eq in Exy as ->. destruct (eqb y z); [apply IH|done].
  - destruct (eqb y z) eqn:Eyz.
    + apply eqb_eq in Eyz as ->. by rewrite Exy.
    + intros H1 H2. destruct (eqb x z) eqn:Exz.
      * apply eqb_eq in Exz as ->.
        rewrite (leb_antisym _ _ H1 H2), eqb_refl' in Exy. done.
      * by eapply leb_trans.
Qed.

End lex.

Lemma pystr_eqb_eq a b : pystr_eqb a b = true <-> a = b.
Proof. unfold pystr_eqb. apply bool_decide_eq_true. Qed.

Lemma N_leb_total x y : (x <=? y)%N = true \/ (y <=? x)%N = true.
Proof. rewrite !N.leb_le. lia. Qed.
Lemma N_leb_trans x y z : (x <=? y)%N = true -> (y <=? z)%N = true -> (x <=? z)%N = true.
Proof. rewrite !N.leb_le. lia. Qed.
Lemma N_leb_antisym x y : (x <=? y)%N = true -> (y <=? x)%N = true -> x = y.
Proof. rewrite !N.leb_le. lia. Qed.

Global Instance path_le_total : Total path_le.
Proof.
  intros p q. apply lex_leb_total; [apply pystr_eqb_eq|].
  apply lex_leb_total; [apply N.eqb_eq|apply N_leb_total].
Qed.

Global Instance path_le_trans : Transitive path_le.
Proof.
  intros p q r. apply lex_leb_trans; first apply pystr_eqb_eq.
  - apply lex_leb_trans; [apply N.eqb_eq|apply N_leb_trans|apply N_leb_antisym].
  - apply lex_leb_antisym; [apply N.eqb_eq|apply N_leb_antisym].
Qed.

Global Instance path_le_antisym : AntiSymm eq path_le.
Proof.
  intros p q. apply lex_leb_antisym; first apply pystr_eqb_eq.
  apply lex_leb_antisym; [apply N.eqb_eq|apply N_leb_antisym].
Qed.


(** ** [sorted] *)


(** ** The file system *)

Section world_facts.
Context `{Externals}.

Lemma child_name_spec dir p name : child_name dir p = Some name <-> p = dir ++ [name].
Proof.
  unfold child_name. split.
  - destruct (drop (length dir) p) as [|n [|? ?]] eqn:E; try done.
    case_bool_decide as Ht; [|done]. intros [= ->].
    by rewrite <- (take_drop (length dir) p), Ht, E.
  - intros ->. rewrite drop_app_length, take_app_length.
    by rewrite bool_decide_eq_true_2.
Qed.

Lemma glob_match_spec dir p :
  glob_match dir p = true <-> exists stem, p = dir ++ [stem ++ lit ".features"].
Proof.
  unfold glob_match, matches_features. split.
  - destruct (child_name dir p) as [name|] eqn:E; [|done].
    apply child_name_spec in E as ->. rewrite endswith_spec. intros [t ->]. eauto.
  - intros [stem ->].
    assert (child_name dir (dir ++ [stem ++ lit ".features"])
            = Some (stem ++ lit ".features")) as -> by by apply child_name_spec.
    apply endswith_spec. eauto.
Qed.

Lemma elem_of_glob_features (files : gmap path node) dir p :
  p ∈ glob_features files dir <->
  is_dir files dir = true /\ is_Some (files !! p)
  /\ exists stem, p = dir ++ [stem ++ lit ".features"].
Proof.
  unfold glob_features. destruct (is_dir files dir).
  - rewrite list_elem_of_filter, elem_of_elements, elem_of_dom, glob_match_spec.
    tauto.
  - split; [by intros ?%elem_of_nil|by intros [? _]].
Qed.


(** ** Running the monad *)

Lemma extend_nil w : extend w [] = w.
Proof. destruct w. unfold extend. simpl. by rewrite app_nil_r. Qed.

Lemma extend_extend w t1 t2 : extend (extend w t1) t2 = extend w (t1 ++ t2).
Proof. unfold extend. simpl. by rewrite app_assoc. Qed.

Lemma bind_run {A B} (m : M A) (k : A -> M B) w :
  (m ≫= k) w = match m w with
                | (Ok a, w') => k a w'
                | (Raise e, w') => (Raise e, w')
                end.
Proof. done. Qed.

Lemma log_run e w : log e w = (Ok (), extend w [e]).
Proof. done. Qed.

Lemma load_features_run p w :
  load_features p w =
  match fs w !! p with
  | Some (File (Binary b)) => (MorphologyData_load p b, extend w [LoadFeatures p])
  | Some (File (Json _)) => (Raise UnpicklingError, extend w [LoadFeatures p])
  | Some Dir => (Raise IsADirectoryError, extend w [LoadFeatures p])
  | None => (if bool_decide (p = []) then Raise IsADirectoryError
             else Raise FileNotFoundError, extend w [LoadFeatures p])
  end.
Proof.
  unfold load_features. rewrite bind_run, log_run, bind_run. unfold read_binary. simpl.
  destruct (fs w !! p) as [[|[b|j]]|]; try done.
  by case_bool_decide.
Qed.

(** Loading a list of feature files: either every file loads, or the run
    stops at the first that does not. *)
Lemma load_all_run paths w :
  (exists data, mapM load_features paths w = (Ok data, extend w (LoadFeatures <$> paths))
                /\ Forall2 (loaded_from (fs w)) paths data)
  \/ (exists e k, mapM load_features paths w
                  = (Raise e, extend w (LoadFeatures <$> take (S k) paths))
                  /\ k < length paths).
Proof.
  revert w. induction paths as [|p paths IH]; intros w.
  - left. exists []. simpl. rewrite extend_nil. by split; [|constructor].
  - assert (forall e, (Raise e : result (list Sample), extend w [LoadFeatures p])
                      = (Raise e, extend w (LoadFeatures <$> take 1 (p :: paths)))) as Hstop by done.
    simpl. rewrite bind_run, load_features_run.
    destruct (fs w !! p) as [[|[b|j]]|] eqn:Ep.
    + right. eexists _, 0. split; [apply Hstop|simpl; lia].
    + destruct (MorphologyData_load p b) as [s|e] eqn:El.
      * rewrite bind_run.
        destruct (IH (extend w [LoadFeatures p])) as [(data & -> & Hd)|(e & k & -> & Hk)].
        -- left. exists (s :: data). rewrite extend_extend. split; [done|].
           constructor; [by exists b|done].
        -- right. exists e, (S k). rewrite extend_extend. split; [done|simpl; lia].
      * right. eexists _, 0. split; [apply Hstop|simpl; lia].
    + right. eexists _, 0. split; [apply Hstop|simpl; lia].
    + right. case_bool_decide; eexists _, 0; (split; [apply Hstop|simpl; lia]).
Qed.

(** The dispatch calls the routine [select_routine] names, or reports the
    model class. *)
Lemma compute_predictions_run dataset ck model_class w :
  compute_predictions dataset ck model_class w =
  match select_routine model_class with
  | Some r => (Some <$> predictions_of r dataset ck, extend w [Invoke r dataset ck])
  | None => (Ok None, extend w [Echo (msg_not_recognized model_class)])
  end.
Proof.
  unfold compute_predictions, select_routine, secho.
  destruct (contains (lit "ManNet") model_class);
    [|destruct (contains (lit "CNN") model_class);
      [|destruct (contains (lit "XGB") model_class)]];
    rewrite bind_run, log_run; try done; simpl.
  - unfold lift. rewrite !bind_run. destruct (predict_gnn dataset ck) as [logits|]; [|done].
    simpl. by destruct (argmax_axis1 _ _ logits).
  - unfold lift. rewrite !bind_run. destruct (predict_cnn dataset ck) as [logits|]; [|done].
    simpl. by destruct (argmax_axis1 _ _ logits).
  - unfold lift. rewrite !bind_run. by destruct (predict_xgb dataset ck).
Qed.

(** The world after the report is written at [p]. *)
Lemma write_json_run p j w :
  write_json p j w =
  if is_dir (fs w) p then (Raise IsADirectoryError, w)
  else if is_dir (fs w) (removelast p) then
    (Ok (), {| fs := <[p := File (Json j)]> (fs w); stdin := stdin w;
               clock := clock w; trace := trace w ++ [WriteFile p] |})
  else if bool_decide (is_Some (fs w !! removelast p)) then (Raise NotADirectoryError, w)
  else (Raise FileNotFoundError, w).
Proof. done. Qed.

Lemma export_results_run dataset predictions cf mc rp w :
  export_results dataset predictions cf mc rp w =
  let w1 := extend w [Echo (check_mark ++ lit " Exporting results...")] in
  match labels_of dataset predictions with
  | Ok labels =>
      match write_json rp (JObj (report labels cf mc)) w1 with
      | (Ok _, w2) => (Ok Done, extend w2 [Echo (check_mark ++ lit " Done.")])
      | (Raise e, w2) => (Raise e, w2)
      end
  | Raise e => (Raise e, w1)
  end.
Proof.
  unfold export_results, labels_of. rewrite bind_run. unfold secho. rewrite log_run.
  rewrite bind_run. unfold lift at 1.
  destruct (iter_predictions predictions) as [preds|]; [|done]. simpl.
  rewrite bind_run. unfold lift.
  destruct (label_loop _ _ _) as [labels|]; [|done].
  rewrite bind_run.
  destruct (write_json _ _ _) as [[[]|e] w2]; [|done].
  by rewrite bind_run, log_run.
Qed.

Lemma invocations_app t1 t2 : invocations (t1 ++ t2) = invocations t1 ++ invocations t2.
Proof. unfold invocations. apply omap_app. Qed.
Lemma writes_app t1 t2 : writes (t1 ++ t2) = writes t1 ++ writes t2.
Proof. unfold writes. apply omap_app. Qed.
Lemma loads_app t1 t2 : loads (t1 ++ t2) = loads t1 ++ loads t2.
Proof. unfold loads. apply omap_app. Qed.

Lemma invocations_load_features paths : invocations (LoadFeatures <$> paths) = [].
Proof. by induction paths. Qed.
Lemma writes_load_features paths : writes (LoadFeatures <$> paths) = [].
Proof. by induction paths. Qed.
Lemma loads_load_features paths : loads (LoadFeatures <$> paths) = paths.
Proof. induction paths; [done|]. simpl. unfold loads in *. simpl. by f_equal. Qed.

Lemma load_data_run fd w t :
  load_data fd (extend w t)
  = mapM load_features (sorted (glob_features (fs w) fd)) (extend w t).
Proof. done. Qed.

(** A run of [predict_body] either fails before the dispatch, having
    called no routine and written nothing, or loads the checkpoint and the
    samples and goes on with the dispatch. *)
Lemma predict_body_run fd cf rp w r w' :
  predict_body fd cf rp w = (r, w') ->
  (exists e t, r = Raise e /\ w' = extend w t /\ invocations t = [] /\ writes t = [])
  \/ (exists b ck mc data t,
        fs w !! cf = Some (File (Binary b)) /\ torch_load b = Ok ck
        /\ ck_model_class ck = Some mc
        /\ Forall2 (loaded_from (fs w)) (sorted (glob_features (fs w) fd)) data
        /\ invocations t = [] /\ writes t = []
        /\ loads t = cf :: sorted (glob_features (fs w) fd)
        /\ dispatch_and_export (MorphologyDataset data) ck mc cf rp (extend w t) = (r, w')).
Proof.
  unfold predict_body, secho, torch_load_file.
  rewrite bind_run, log_run, !bind_run, log_run, bind_run. unfold read_binary at 1.
  cbn [fs extend].
  destruct (fs w !! cf) as [[|[b|j]]|] eqn:Ecf;
    try (intros [= <- <-]; left; eexists _, _; split; [reflexivity|];
         split; [rewrite extend_extend; reflexivity|done]).
  2:{ case_bool_decide; intros [= <- <-]; left; eexists _, _; (split; [reflexivity|]);
        (split; [rewrite extend_extend; reflexivity|done]). }
  unfold lift at 1. destruct (torch_load b) as [ck|e] eqn:Eck;
    [|intros [= <- <-]; left; eexists _, _; split; [reflexivity|];
      split; [rewrite extend_extend; reflexivity|done]].
  rewrite bind_run. unfold lift at 1.
  destruct (ck_model_class ck) as [mc|] eqn:Emc; cbn [getitem];
    [|intros [= <- <-]; left; eexists _, _; split; [reflexivity|];
      split; [rewrite extend_extend; reflexivity|done]].
  rewrite bind_run, log_run, bind_run, !extend_extend.
  match goal with |- context [extend w ?t] => set (t0 := t) end.
  assert (invocations t0 = [] /\ writes t0 = [] /\ loads t0 = [cf]) as (Hi0 & Hw0 & Hl0) by done.
  assert (exists t1 (r : result ()),
            match ck_metadata ck return M unit with
            | Some metadata =>
                lift (getitem metadata) ≫= λ timestamp, log (Echo (lit "Created on  : " ++ timestamp))
            | None => mret ()
            end (extend w t0) = (r, extend w (t0 ++ t1))
            /\ invocations t1 = [] /\ writes t1 = [] /\ loads t1 = []) as (t1 & r1 & -> & Hi1 & Hw1 & Hl1).
  { destruct (ck_metadata ck) as [[ts|]|].
    - eexists [_], _. rewrite bind_run. unfold lift. cbn [getitem]. rewrite log_run, extend_extend. done.
    - exists [], (Raise KeyError). by rewrite app_nil_r.
    - exists [], (Ok ()). by rewrite app_nil_r. }
  clearbody t0.
  destruct r1 as [[]|e].
  2:{ intros [= <- <-]. left. eexists _, _. split; [reflexivity|]. split; [reflexivity|].
      by rewrite invocations_app, writes_app, Hi0, Hi1, Hw0, Hw1. }
  rewrite bind_run, log_run, bind_run, extend_extend.
  rewrite load_data_run.
  set (paths := sorted (glob_features (fs w) fd)).
  match goal with
  | |- context [mapM load_features paths ?w1] =>
      destruct (load_all_run paths w1) as [(data & -> & Hd)|(e & k & -> & Hk)]
  end.
  - rewrite bind_run, log_run, bind_run, log_run, !extend_extend.
    intros Hrun. right. exists b, ck, mc, data. eexists.
    split_and!; [done|done|done|exact Hd| | | |exact Hrun].
    + rewrite !invocations_app, Hi0, Hi1, invocations_load_features. done.
    + rewrite !writes_app, Hw0, Hw1, writes_load_features. done.
    + rewrite !loads_app, Hl0, Hl1, loads_load_features. simpl. by rewrite !app_nil_r.
  - intros [= <- <-]. left. eexists _, _. rewrite extend_extend. split; [reflexivity|].
    split; [reflexivity|].
    by rewrite !invocations_app, !writes_app, Hi0, Hi1, Hw0, Hw1, invocations_load_features,
       writes_load_features.
Qed.

Lemma dispatch_and_export_run dataset ck mc cf rp w :
  dispatch_and_export dataset ck mc cf rp w =
  match select_routine mc with
  | None => (Ok NotRecognized, extend w [Echo (msg_not_recognized mc)])
  | Some r =>
      match predictions_of r dataset ck with
      | Ok predictions =>
          export_results dataset predictions cf mc rp (extend w [Invoke r dataset ck])
      | Raise e => (Raise e, extend w [Invoke r dataset ck])
      end
  end.
Proof.
  unfold dispatch_and_export. rewrite bind_run, compute_predictions_run.
  destruct (select_routine mc) as [r|]; [|done].
  by destruct (predictions_of r dataset ck).
Qed.

(** The first steps of [predict]: the three header lines, then the
    question about an existing report. *)
Lemma predict_run fd cf od rn w :
  let rp := results_path_of od (default (lit "results_" ++ clock w) rn) in
  predict fd cf od rn w =
  if fs_exists (fs w) rp then
    match stdin w with
    | [] => (Raise EOFError, extend w (headers fd cf rp ++ [Echo (msg_overwrite rp)]))
    | response :: rest =>
        let t := headers fd cf rp ++ [Echo (msg_overwrite rp); ReadLine response] in
        if pystr_eqb (lower (strip response)) (lit "y") then
          predict_body fd cf rp
            (extend (with_stdin w rest)
               (t ++ [Echo (lit "You chose to overwrite, proceeding...")]))
        else (Ok Stopped, extend (with_stdin w rest) (t ++ [Echo (lit "Stopping.")]))
    end
  else predict_body fd cf rp (extend w (headers fd cf rp)).
Proof.
  intros rp. unfold predict, secho.
  assert (forall k : pystr -> M outcome,
            (match rn with
             | Some name => mret name
             | None => now ≫= λ timestamp, mret (lit "results_" ++ timestamp)
             end ≫= k) w = k (default (lit "results_" ++ clock w) rn) w) as ->
    by by destruct rn.
  fold rp.
  rewrite bind_run, log_run, bind_run, log_run, bind_run, log_run, !extend_extend.
  rewrite bind_run. unfold path_exists. cbn [fs extend].
  destruct (fs_exists (fs w) rp); [|done].
  rewrite bind_run, log_run, extend_extend, bind_run. unfold input. cbn [stdin extend].
  destruct (stdin w) as [|response rest]; [done|].
  destruct (pystr_eqb (lower (strip response)) (lit "y")); cbn [negb];
    rewrite ?bind_run, ?log_run; unfold extend, with_stdin; cbn [fs stdin clock trace];
    by rewrite <- !app_assoc.
Qed.

End world_facts.

(** ** Fallible computations *)

Lemma result_bind_Ok {A B} (f : A -> result B) (r : result A) b :
  r ≫= f = Ok b <-> exists a, r = Ok a /\ f a = Ok b.
Proof. destruct r as [a|e]; simpl; [|split; [done|by intros (? & ? & ?)]]. split; [eauto|]. by intros (? & [= ->] & ?). Qed.

Lemma result_fmap_Ok {A B} (f : A -> B) (r : result A) b :
  f <$> r = Ok b <-> exists a, r = Ok a /\ b = f a.
Proof.
  destruct r as [a|e]; simpl.
  - split; [intros [= <-]; eauto|]. by intros (? & [= ->] & ->).
  - split; [done|by intros (? & ? & ?)].
Qed.


(** ** Python dicts *)

Lemma dict_get_set {V} (k k' : pystr) (v : V) d :
  dict_get k (dict_set k' v d) = if bool_decide (k' = k) then Some v else dict_get k d.
Proof.
  induction d as [|[k0 v0] d IH]; simpl; [done|].
  repeat case_bool_decide; simpl; rewrite ?IH;
    repeat case_bool_decide; congruence.
Qed.

(** ** numpy *)

Section argmax_facts.
Context {A : Type} (le : A -> A -> bool) (isnan : A -> bool).
Hypothesis le_total :
  forall x y, isnan x = false -> isnan y = false -> le x y = true \/ le y x = true.
Hypothesis le_trans : forall x y z, le x y = true -> le y z = true -> le x z = true.

Lemma argmax_from_first_max pre l best bi i :
  i = length pre ->
  Forall (fun x => isnan x = false) pre ->
  Forall (fun x => isnan x = false) l ->
  pre !! bi = Some best ->
  (forall j y, pre !! j = Some y -> le y best = true) ->
  (forall j y, j < bi -> pre !! j = Some y -> le best y = false) ->
  first_max le (pre ++ l) (argmax_from le isnan best bi i l).
Proof.
  revert pre best bi i.
  induction l as [|x l IH]; intros pre best bi i -> Hpre Hnan Hbi Hmax Hfirst.
  - simpl. rewrite app_nil_r. by exists best.
  - apply Forall_cons in Hnan as [Hx Hnan]. simpl.
    replace (pre ++ x :: l) with ((pre ++ [x]) ++ l) by by rewrite <- app_assoc.
    assert (S (length pre) = length (pre ++ [x])) as Hlen
      by (rewrite length_app; simpl; lia).
    assert (Forall (fun x => isnan x = false) (pre ++ [x])) as Hpre'
      by (apply Forall_app; split; [done|by constructor]).
    assert (isnan best = false) as Hbest
      by (rewrite Forall_lookup in Hpre; by apply (Hpre bi)).
    destruct (le x best) eqn:Exb.
    + apply IH; [done|done|done| | |].
      * by apply lookup_app_l_Some.
      * intros j y [?|[_ [_ <-]%list_lookup_singleton_Some]]%lookup_app_Some; eauto.
      * intros j y Hj [?|[Hge _]]%lookup_app_Some; [eauto|].
        apply lookup_lt_Some in Hbi. lia.
    + rewrite Hx.
      assert (le best x = true) as Hbx by (destruct (le_total best x); congruence).
      apply IH; [done|done|done| | |].
      * rewrite lookup_app_r by lia. by rewrite Nat.sub_diag.
      * intros j y [Hy|[_ [_ <-]%list_lookup_singleton_Some]]%lookup_app_Some.
        -- eapply le_trans; [|exact Hbx]. eauto.
        -- by destruct (le_total x x).
      * intros j y Hj [Hy|[Hge _]]%lookup_app_Some; [|lia].
        destruct (le x y) eqn:Exy; [|done].
        rewrite (le_trans x y best) in Exb; eauto.
Qed.

(** On a row without NaN, numpy's scan finds the first maximum. *)
Lemma argmax_list_first_max row :
  row <> [] -> Forall (fun x => isnan x = false) row ->
  first_max le row (argmax_list le isnan row).
Proof.
  destruct row as [|x row]; [done|]. intros _ [Hx Hnan]%Forall_cons.
  simpl. rewrite Hx.
  apply (argmax_from_first_max [x] row x 0 1); [done|by constructor|done|done| |].
  - intros j y [_ <-]%list_lookup_singleton_Some. by destruct (le_total x x).
  - intros j y Hj. lia.
Qed.

End argmax_facts.

Lemma omap_lookup_seq {A} (l : list A) s c :
  s + c <= length l -> omap (fun k => l !! (s + k)) (seq 0 c) = take c (drop s l).
Proof.
  induction c as [|c IH]; intros Hc.
  - by rewrite take_0.
  - rewrite seq_S, omap_app, IH by lia. simpl.
    destruct (lookup_lt_is_Some_2 l (s + c)) as [x Hx]; [lia|].
    rewrite Hx. simpl.
    rewrite (take_S_r _ _ x); [done|]. by rewrite lookup_drop.
Qed.

Lemma lane_row {A} (a : ndarray A) n c i :
  length (flat a) = n * c -> i < n -> lane a c 1 i 0 = row_of a c i.
Proof.
  intros Hlen Hi. unfold lane, row_of.
  rewrite <- (omap_lookup_seq (flat a) (i * c) c) by nia.
  apply list_omap_ext, Forall_Forall2_diag, Forall_forall. intros k _. f_equal. lia.
Qed.

Lemma bind_seq_1 {B} (f : nat -> nat -> B) (l : list nat) :
  (i ← l; j ← seq 0 1; [f i j]) = (fun i => f i 0) <$> l.
Proof. induction l as [|i l IH]; [done|]. cbn. cbn in IH. by rewrite IH. Qed.

(** [argmax(axis=1)] of a matrix: one index per row. *)
Lemma argmax_axis1_matrix {A} (le : A -> A -> bool) isnan (a : ndarray A) n c :
  shape a = [n; c] -> c <> 0 ->
  argmax_axis1 le isnan a
  = Ok (NdArray [n] ((fun i => Z.of_nat (argmax_list le isnan (lane a c 1 i 0))) <$> seq 0 n)).
Proof.
  intros Hs Hc. unfold argmax_axis1. rewrite Hs. rewrite bool_decide_eq_false_2 by done.
  cbn [size_of foldr]. by rewrite bind_seq_1.
Qed.

(** The items of a vector are its entries, as scalars. *)
Lemma items_vector {A} (l : list A) n :
  length l = n -> items (NdArray [n] l) = Ok (scalar <$> l).
Proof.
  intros Hn. unfold items. cbn [shape]. f_equal.
  apply list_eq. intros i. rewrite !list_lookup_fmap.
  destruct (decide (i < n)) as [Hi|Hi].
  - rewrite lookup_seq_lt by done. cbn [fmap option_fmap option_map].
    destruct (lookup_lt_is_Some_2 l i) as [x Hx]; [lia|]. rewrite Hx. simpl.
    unfold item, scalar. cbn [size_of foldr flat]. f_equal. f_equal.
    rewrite Nat.mul_1_r. by rewrite (take_S_r _ _ x), take_0 by by rewrite lookup_drop, Nat.add_0_r.
  - rewrite lookup_seq_ge by lia. rewrite lookup_ge_None_2 by lia. done.
Qed.

Lemma length_items {A} (a : ndarray A) l n rest :
  shape a = n :: rest -> items a = Ok l -> length l = n.
Proof.
  unfold items. intros ->. intros [= <-]. by rewrite length_fmap, length_seq.
Qed.

(** ** The routines and the export loop *)

Section routine_facts.
Context `{Externals}.

Lemma lookup_label_Ok y_to_label (pred : ndarray Z) label :
  lookup_label y_to_label pred = Ok label
  <-> exists k, pred = scalar k /\ y_to_label !! k = Some label.
Proof.
  unfold lookup_label, scalar. destruct pred as [[|n s] [|k [|k' l]]]; simpl;
    try (split; [done|by intros (? & [= ] & ?)]).
  destruct (y_to_label !! k) as [lbl|] eqn:E; simpl.
  - split; [intros [= <-]; eauto|]. intros (k0 & [= <-] & ?). congruence.
  - split; [done|]. intros (k0 & [= <-] & ?). congruence.
Qed.


Lemma run_model_length {X} (fwd : Model -> X -> result (ndarray Entry * Model)) m xs ys :
  run_model fwd m xs = Ok ys -> length ys = length xs.
Proof.
  revert m ys. induction xs as [|x xs IH]; intros m ys; simpl.
  - by intros [= <-].
  - intros ([y m'] & _ & (ys' & Hys' & [= <-])%result_bind_Ok)%result_bind_Ok.
    simpl. f_equal. eauto.
Qed.

End routine_facts.

(** ** Runs whose inputs load *)

Section run_facts.
Context `{Externals}.

Lemma load_all_ok paths data w :
  Forall2 (loaded_from (fs w)) paths data ->
  mapM load_features paths w = (Ok data, extend w (LoadFeatures <$> paths)).
Proof.
  revert w data. induction paths as [|p paths IH]; intros w data.
  - intros ->%Forall2_nil_inv_l. simpl. by rewrite extend_nil.
  - intros (s & data' & (b & Hb & Hs) & Hd & ->)%Forall2_cons_inv_l.
    cbn [mapM]. rewrite bind_run, load_features_run, Hb, Hs, bind_run.
    rewrite (IH (extend w [LoadFeatures p]) data') by done.
    by rewrite extend_extend.
Qed.

(** When the checkpoint and every feature file load, [predict_body] gets
    to the dispatch. *)
Lemma predict_body_ok fd cf rp w ck mc data :
  inputs_load (fs w) fd cf ck mc data ->
  exists t, invocations t = [] /\ writes t = []
    /\ predict_body fd cf rp w
       = dispatch_and_export (MorphologyDataset data) ck mc cf rp (extend w t).
Proof.
  intros ((b & Hb & Hck) & Hmc & Hmeta & Hdata).
  unfold predict_body, secho, torch_load_file.
  rewrite bind_run, log_run, !bind_run, log_run, bind_run. unfold read_binary at 1.
  cbn [fs extend]. rewrite Hb. unfold lift at 1. rewrite Hck.
  rewrite bind_run. unfold lift at 1. rewrite Hmc. cbn [getitem].
  rewrite bind_run, log_run, bind_run, !extend_extend.
  match goal with |- context [extend w ?t] => set (t0 := t) end.
  assert (invocations t0 = [] /\ writes t0 = []) as (Hi0 & Hw0) by done.
  assert (exists t1,
            match ck_metadata ck return M unit with
            | Some metadata =>
                lift (getitem metadata) ≫= λ timestamp, log (Echo (lit "Created on  : " ++ timestamp))
            | None => mret ()
            end (extend w t0) = (Ok (), extend w (t0 ++ t1))
            /\ invocations t1 = [] /\ writes t1 = []) as (t1 & -> & Hi1 & Hw1).
  { destruct (ck_metadata ck) as [[ts|]|]; [| done |].
    - eexists [_]. rewrite bind_run. unfold lift. cbn [getitem]. rewrite log_run, extend_extend. done.
    - exists []. by rewrite app_nil_r. }
  clearbody t0.
  rewrite bind_run, log_run, bind_run, extend_extend, load_data_run.
  rewrite (load_all_ok _ data) by done.
  rewrite bind_run, log_run, bind_run, log_run, !extend_extend.
  eexists. split_and!; [| |reflexivity].
  - by rewrite !invocations_app, Hi0, Hi1, invocations_load_features.
  - by rewrite !writes_app, Hw0, Hw1, writes_load_features.
Qed.

End run_facts.

Section claims.
Context `{Externals}.

(** ** Runs of [predict] *)

(** The outcome of the dispatch and of the export. *)
Lemma dispatch_and_export_inv dataset ck mc cf rp w r w' :
  dispatch_and_export dataset ck mc cf rp w = (r, w') ->
  match select_routine mc with
  | None => r = Ok NotRecognized /\ w' = extend w [Echo (msg_not_recognized mc)]
  | Some rt =>
      (exists e t, r = Raise e /\ w' = extend w (Invoke rt dataset ck :: t)
                   /\ invocations t = [] /\ writes t = [] /\ loads t = [])
      \/ (exists predictions labels,
            predictions_of rt dataset ck = Ok predictions
            /\ labels_of dataset predictions = Ok labels
            /\ r = Ok Done
            /\ fs w' = <[rp := File (Json (JObj (report labels cf mc)))]> (fs w)
            /\ stdin w' = stdin w /\ clock w' = clock w
            /\ trace w' = trace w ++ [Invoke rt dataset ck;
                                      Echo (check_mark ++ lit " Exporting results...");
                                      WriteFile rp;
                                      Echo (check_mark ++ lit " Done.")])
  end.
Proof.
  rewrite dispatch_and_export_run. destruct (select_routine mc) as [rt|].
  2:{ by intros [= <- <-]. }
  destruct (predictions_of rt dataset ck) as [predictions|e] eqn:Ep.
  2:{ intros [= <- <-]. left. by exists e, []. }
  rewrite export_results_run. cbn zeta.
  destruct (labels_of dataset predictions) as [labels|e] eqn:El.
  2:{ intros [= <- <-]. left. eexists e, [_]. by rewrite extend_extend. }
  rewrite write_json_run, extend_extend. cbn [fs extend].
  destruct (is_dir (fs w) rp).
  { intros [= <- <-]. left. by eexists _, [_]. }
  destruct (is_dir (fs w) (removelast rp)).
  - intros [= <- <-]. right. exists predictions, labels.
    split_and!; try done. cbn. by rewrite <- !app_assoc.
  - case_bool_decide; intros [= <- <-]; left; by eexists _, [_].
Qed.

(** A run of [predict] either ends before the dispatch, with the files as
    they were, or loads its inputs and goes on with the dispatch. *)
Lemma predict_inv fd cf od rn w r w' :
  predict fd cf od rn w = (r, w') ->
  let rp := results_path_of od (default (lit "results_" ++ clock w) rn) in
  (exists t, fs w' = fs w /\ trace w' = trace w ++ t
             /\ invocations t = [] /\ writes t = []
             /\ (r = Ok Stopped \/ exists e, r = Raise e))
  \/ (exists b ck mc data w2 t,
        fs w !! cf = Some (File (Binary b)) /\ torch_load b = Ok ck
        /\ ck_model_class ck = Some mc
        /\ Forall2 (loaded_from (fs w)) (sorted (glob_features (fs w) fd)) data
        /\ fs w2 = fs w /\ trace w2 = trace w ++ t
        /\ invocations t = [] /\ writes t = []
        /\ loads t = cf :: sorted (glob_features (fs w) fd)
        /\ dispatch_and_export (MorphologyDataset data) ck mc cf rp w2 = (r, w')).
Proof.
  intros Hrun rp. rewrite predict_run in Hrun. fold rp in Hrun. cbn zeta in Hrun.
  assert (forall w1 t1,
            fs w1 = fs w -> trace w1 = trace w ++ t1 ->
            invocations t1 = [] -> writes t1 = [] -> loads t1 = [] ->
            predict_body fd cf rp w1 = (r, w') ->
            (exists t, fs w' = fs w /\ trace w' = trace w ++ t
               /\ invocations t = [] /\ writes t = []
               /\ (r = Ok Stopped \/ exists e, r = Raise e))
            \/ (exists b ck mc data w2 t,
                  fs w !! cf = Some (File (Binary b)) /\ torch_load b = Ok ck
                  /\ ck_model_class ck = Some mc
                  /\ Forall2 (loaded_from (fs w)) (sorted (glob_features (fs w) fd)) data
                  /\ fs w2 = fs w /\ trace w2 = trace w ++ t
                  /\ invocations t = [] /\ writes t = []
                  /\ loads t = cf :: sorted (glob_features (fs w) fd)
                  /\ dispatch_and_export (MorphologyDataset data) ck mc cf rp w2 = (r, w')))
    as Hbody.
  { intros w1 t1 Hfs Htr Hi Hw Hl Hb.
    apply predict_body_run in Hb
      as [(e & t & -> & -> & Hi' & Hw')|(b & ck & mc & data & t & Hb)].
    - left. exists (t1 ++ t). cbn. rewrite Hfs, Htr, invocations_app, writes_app, Hi, Hi', Hw, Hw'.
      rewrite <- app_assoc. eauto 10.
    - right. rewrite Hfs in Hb. destruct Hb as (? & ? & ? & ? & Hi' & Hw' & Hl' & ?).
      exists b, ck, mc, data, (extend w1 t), (t1 ++ t). cbn.
      rewrite Hfs, Htr, invocations_app, writes_app, loads_app, Hi, Hi', Hw, Hw', Hl, Hl'.
      rewrite <- app_assoc. split_and!; done. }
  destruct (fs_exists (fs w) rp).
  - destruct (stdin w) as [|response rest].
    + injection Hrun as <- <-. left. eexists. cbn. split_and!; [done|done|done|done|eauto].
    + destruct (pystr_eqb (lower (strip response)) (lit "y")).
      * eapply Hbody; [| | | | |exact Hrun]; done.
      * injection Hrun as <- <-. left. eexists. cbn. split_and!; [done|done|done|done|eauto].
  - eapply Hbody; [| | | | |exact Hrun]; done.
Qed.

(** When the inputs load and the user does not stop the run, [predict]
    gets to the dispatch. *)
Lemma predict_ok fd cf od rn w ck mc data :
  let rp := results_path_of od (default (lit "results_" ++ clock w) rn) in
  inputs_load (fs w) fd cf ck mc data ->
  (fs_exists (fs w) rp = false
   \/ exists response rest, stdin w = response :: rest
                            /\ lower (strip response) = lit "y") ->
  exists w2 t, fs w2 = fs w /\ trace w2 = trace w ++ t
    /\ invocations t = [] /\ writes t = []
    /\ predict fd cf od rn w
       = dispatch_and_export (MorphologyDataset data) ck mc cf rp w2.
Proof.
  intros rp Hin Hgo. rewrite predict_run. fold rp. cbn zeta.
  assert (forall w1 t1,
            fs w1 = fs w -> trace w1 = trace w ++ t1 ->
            invocations t1 = [] -> writes t1 = [] ->
            exists w2 t, fs w2 = fs w /\ trace w2 = trace w ++ t
              /\ invocations t = [] /\ writes t = []
              /\ predict_body fd cf rp w1
                 = dispatch_and_export (MorphologyDataset data) ck mc cf rp w2) as Hbody.
  { intros w1 t1 Hfs Htr Hi Hw. rewrite <- Hfs in Hin.
    destruct (predict_body_ok fd cf rp w1 ck mc data Hin) as (t & Hi' & Hw' & ->).
    exists (extend w1 t), (t1 ++ t). cbn.
    by rewrite Hfs, Htr, invocations_app, writes_app, Hi, Hi', Hw, Hw', <- app_assoc. }
  destruct Hgo as [->|(response & rest & -> & Hy)].
  - by eapply Hbody.
  - destruct (fs_exists (fs w) rp); [|by eapply Hbody].
    unfold pystr_eqb. rewrite bool_decide_eq_true_2 by done. by eapply Hbody.
Qed.

Lemma invocations_invoke r dataset ck t :
  invocations (Invoke r dataset ck :: t) = (r, dataset, ck) :: invocations t.
Proof. done. Qed.


(** The three entries of the report. *)
Lemma report_entries labels cf mc :
  dict_get (lit "predictions") (report labels cf mc) = Some (JObj labels)
  /\ dict_get (lit "checkpoint_path") (report labels cf mc) = Some (JStr (path_str cf))
  /\ dict_get (lit "model") (report labels cf mc) = Some (JStr mc).
Proof.
  unfold report. rewrite !dict_get_set. cbn [dict_get].
  assert (lit "model" <> lit "predictions") by (vm_compute; discriminate).
  assert (lit "model" <> lit "checkpoint_path") by (vm_compute; discriminate).
  assert (lit "checkpoint_path" <> lit "predictions") by (vm_compute; discriminate).
  rewrite !(bool_decide_eq_false_2 (lit "model" = _)) by done.
  rewrite !(bool_decide_eq_false_2 (lit "checkpoint_path" = lit "predictions")) by done.
  by rewrite !bool_decide_eq_true_2 by done.
Qed.


Lemma argmax_axis1_shape {A} (le : A -> A -> bool) isnan a p :
  argmax_axis1 le isnan a = Ok p ->
  exists n c rest, shape a = n :: c :: rest /\ c <> 0 /\ shape p = n :: rest.
Proof.
  unfold argmax_axis1. destruct (shape a) as [|n [|c rest]]; [done|done|].
  case_bool_decide; [done|]. intros [= <-]. by exists n, c, rest.
Qed.


(** The two neural routines in terms of [rebuild_model]. *)
Lemma predict_gnn_rebuild dataset ck :
  predict_gnn dataset ck
  = (model ← rebuild_model ck;
     logits ← run_model forward_sample (model_eval model) (ds_iter dataset);
     np_array logits).
Proof.
  unfold predict_gnn, rebuild_model.
  destruct (ck_model_class ck) as [mc|]; rebuild_step.
  rewrite after_last_dot_rpartition.
  destruct (models_getattr _) as [cls|]; rebuild_step.
  destruct (ck_model_params ck) as [params|]; rebuild_step.
  destruct (model_init cls params) as [model|]; rebuild_step.
  destruct (ck_all_model ck) as [state|]; rebuild_step.
Qed.

Lemma predict_cnn_rebuild dataset ck :
  predict_cnn dataset ck
  = (model ← rebuild_model ck;
     logits ← run_model forward_image model (sample_image <$> ds_iter dataset);
     (if bool_decide (0 < length logits) then np_concatenate logits
      else np_array logits)).
Proof.
  unfold predict_cnn, rebuild_model.
  destruct (ck_model_class ck) as [mc|]; rebuild_step.
  rewrite after_last_dot_rpartition.
  destruct (models_getattr _) as [cls|]; rebuild_step.
  destruct (ck_model_params ck) as [params|]; rebuild_step.
  destruct (model_init cls params) as [model|]; rebuild_step.
  destruct (ck_all_model ck) as [state|]; rebuild_step.
Qed.

(** What follows the last dot of a name. *)
Lemma after_last_dot_spec s :
  (46%N ∉ after_last_dot s)
  /\ (s = after_last_dot s \/ exists before, s = before ++ 46%N :: after_last_dot s).
Proof.
  rewrite after_last_dot_rpartition. unfold rpartition.
  destruct (rpartition_at 46%N s) as [[h t]|] eqn:E; cbn [snd].
  - apply rpartition_at_Some in E as [-> Ht]. split; [done|]. right. by exists h.
  - apply rpartition_at_None in E. split; [done|by left].
Qed.

(** With no sample the neural routines give logits of shape (0,), which
    have no axis 1. *)
Lemma predictions_of_empty r ck :
  r <> Xgb ->
  predictions_of r (MorphologyDataset []) ck
  = (_ ← rebuild_model ck; Raise AxisError).
Proof.
  intros Hr. destruct r; [| |done]; cbn [predictions_of].
  - rewrite predict_gnn_rebuild. by destruct (rebuild_model ck).
  - rewrite predict_cnn_rebuild. by destruct (rebuild_model ck).
Qed.

(** ** The claims *)


(** C2 (as amended): [contains] is the substring test; the routine is
    chosen by the three substring tests in their order ("ManNet", then
    "CNN", then "XGB"), and a model class with none of the three selects
    no routine.  A run of [predict] calls
    at most one routine, on the checkpoint loaded from the checkpoint file,
    and it is the one that checkpoint's model class selects.  When the
    inputs load, the user does not stop the run and the model class selects
    a routine, the run calls exactly that routine, once, on the dataset of
    the loaded samples, and fails with the routine when the routine fails. *)
Theorem C2_dispatch_on_model_class fd cf od rn w :
  (forall needle hay,
     contains needle hay = true <-> exists a b, hay = a ++ needle ++ b)
  /\ (forall mc,
     (contains (lit "ManNet") mc = true -> select_routine mc = Some Gnn)
     /\ (contains (lit "ManNet") mc = false -> contains (lit "CNN") mc = true ->
          select_routine mc = Some Cnn)
     /\ (contains (lit "ManNet") mc = false -> contains (lit "CNN") mc = false ->
          contains (lit "XGB") mc = true -> select_routine mc = Some Xgb)
     /\ (contains (lit "ManNet") mc = false -> contains (lit "CNN") mc = false ->
          contains (lit "XGB") mc = false -> select_routine mc = None))
  /\ (exists t, trace (predict fd cf od rn w).2 = trace w ++ t
        /\ (invocations t = []
             \/ exists b ck mc r dataset,
                  fs w !! cf = Some (File (Binary b)) /\ torch_load b = Ok ck
                  /\ ck_model_class ck = Some mc
                  /\ select_routine mc = Some r
                  /\ invocations t = [(r, dataset, ck)]))
  /\ (forall ck mc data r,
        inputs_load (fs w) fd cf ck mc data ->
        (fs_exists (fs w) (results_path_of od (default (lit "results_" ++ clock w) rn))
         = false
         \/ exists response rest, stdin w = response :: rest
                                  /\ lower (strip response) = lit "y") ->
        select_routine mc = Some r ->
        (exists t, trace (predict fd cf od rn w).2 = trace w ++ t
                   /\ invocations t = [(r, MorphologyDataset data, ck)])
        /\ (forall e, predictions_of r (MorphologyDataset data) ck = Raise e ->
               (predict fd cf od rn w).1 = Raise e)).
Proof.
  split_and!.
  - apply contains_spec.
  - intros mc. unfold select_routine. split_and!.
    + by intros ->.
    + by intros -> ->.
    + by intros -> -> ->.
    + by intros -> -> ->.
  - destruct (predict fd cf od rn w) as [r w'] eqn:Hrun. cbn [fst snd].
    apply predict_inv in Hrun
      as [(t & Hfs & Htr & Hi & Hw & Hr)
         |(b & ck & mc & data & w2 & t & Hb & Hck & Hmc & _ & Hfs & Htr & Hi & Hw & _ & Hrun)].
    + exists t. split_and!; [done|by left].
    + apply dispatch_and_export_inv in Hrun.
      destruct (select_routine mc) as [rt|] eqn:Hsel.
      * assert (exists t', trace w' = trace w2 ++ Invoke rt (MorphologyDataset data) ck :: t'
                           /\ invocations t' = []) as (t' & Htr' & Hi').
        { destruct Hrun as [(e & t' & -> & -> & Hi' & _)|(predictions & labels & _ & _ & _ & _ & _ & _ & ->)].
          - by exists t'.
          - by eexists. }
        exists (t ++ Invoke rt (MorphologyDataset data) ck :: t').
        rewrite Htr', Htr, <- app_assoc. split; [done|].
        rewrite invocations_app, Hi, invocations_invoke, Hi'.
        right. exists b, ck, mc, rt, (MorphologyDataset data). done.
      * destruct Hrun as [-> ->]. exists (t ++ [Echo (msg_not_recognized mc)]).
        cbn. rewrite Htr, <- app_assoc, invocations_app, Hi. split_and!; [done|by left].
  - intros ck mc data r Hin Hgo Hsel.
    destruct (predict_ok fd cf od rn w ck mc data Hin Hgo)
      as (w2 & t & _ & Htr & Hi & _ & ->).
    destruct (dispatch_and_export _ _ _ _ _ w2) as [res w'] eqn:Hrun. cbn [fst snd].
    split.
    2:{ intros e He. rewrite dispatch_and_export_run, Hsel, He in Hrun. congruence. }
    apply dispatch_and_export_inv in Hrun. rewrite Hsel in Hrun.
    destruct Hrun as [(e & t' & -> & -> & Hi' & _)
                     |(predictions & labels & Hp & _ & -> & _ & _ & _ & Htr')].
    + exists (t ++ Invoke r (MorphologyDataset data) ck :: t'). cbn.
      by rewrite Htr, <- app_assoc, invocations_app, Hi, invocations_invoke, Hi'.
    + eexists. rewrite Htr', Htr, <- app_assoc. split; [done|].
      by rewrite invocations_app, Hi.
Qed.


(** C4: with a checkpoint whose model class contains none of "ManNet",
    "CNN" and "XGB", no run of [predict] writes a file or calls a routine:
    the files are as they were; a run that returns after the dispatch ends
    with the message that the model is not recognized; and when the inputs
    load and the user does not stop it, the run does get there. *)
Theorem C4_model_not_recognized fd cf od rn w b ck mc :
  let rp := results_path_of od (default (lit "results_" ++ clock w) rn) in
  fs w !! cf = Some (File (Binary b)) -> torch_load b = Ok ck ->
  ck_model_class ck = Some mc ->
  contains (lit "ManNet") mc = false ->
  contains (lit "CNN") mc = false ->
  contains (lit "XGB") mc = false ->
  (forall r w', predict fd cf od rn w = (r, w') ->
     fs w' = fs w /\ r <> Ok Done
     /\ exists t, trace w' = trace w ++ t /\ writes t = [] /\ invocations t = []
          /\ (r = Ok NotRecognized -> last t = Some (Echo (msg_not_recognized mc))))
  /\ (forall data,
        ck_metadata ck <> Some None ->
        Forall2 (loaded_from (fs w)) (sorted (glob_features (fs w) fd)) data ->
        (fs_exists (fs w) rp = false
         \/ exists response rest, stdin w = response :: rest
                                  /\ lower (strip response) = lit "y") ->
        exists w', predict fd cf od rn w = (Ok NotRecognized, w')).
Proof.
  intros rp Hb Hck Hmc H1 H2 H3.
  assert (select_routine mc = None) as Hsel by (unfold select_routine; by rewrite H1, H2, H3).
  split.
  - intros r w' Hrun.
    apply predict_inv in Hrun
      as [(t & Hfs & Htr & Hi & Hw & Hr)
         |(b' & ck' & mc' & data & w2 & t & Hb' & Hck' & Hmc' & _ & Hfs & Htr & Hi & Hw & _ & Hrun)].
    + split; [done|]. split; [by destruct Hr as [->|[e ->]]|].
      exists t. split_and!; try done. by destruct Hr as [->|[e ->]].
    + assert (mc' = mc) as -> by congruence.
      apply dispatch_and_export_inv in Hrun. fold rp in Hrun. rewrite Hsel in Hrun.
      destruct Hrun as [-> ->]. cbn. split; [done|]. split; [done|].
      exists (t ++ [Echo (msg_not_recognized mc)]).
      rewrite Htr, writes_app, invocations_app, Hi, Hw, <- app_assoc, last_snoc. done.
  - intros data Hmeta Hdata Hgo.
    destruct (predict_ok fd cf od rn w ck mc data) as (w2 & t & _ & _ & _ & _ & ->); [|done|].
    { split_and!; eauto. }
    fold rp. rewrite dispatch_and_export_run, Hsel. eauto.
Qed.

(** C5 (where the code departs from it): when no file of the features
    directory matches and the model class selects the GNN or the CNN
    routine, no run of [predict] completes: the files are as they were and
    no report is written; when the inputs load, the model is rebuilt and
    the user does not stop the run, it ends with the [AxisError] of
    [argmax(axis=1)] on the empty 1-d array of logits. *)
Theorem C5_empty_dataset_neural_routines_fail fd cf od rn w b ck mc r :
  fs w !! cf = Some (File (Binary b)) -> torch_load b = Ok ck ->
  ck_model_class ck = Some mc ->
  select_routine mc = Some r -> r <> Xgb ->
  glob_features (fs w) fd = [] ->
  (forall res w', predict fd cf od rn w = (res, w') ->
     res <> Ok Done /\ res <> Ok NotRecognized /\ fs w' = fs w)
  /\ (forall model,
        rebuild_model ck = Ok model ->
        ck_metadata ck <> Some None ->
        (fs_exists (fs w) (results_path_of od (default (lit "results_" ++ clock w) rn)) = false
         \/ exists response rest, stdin w = response :: rest
                                  /\ lower (strip response) = lit "y") ->
        exists w', predict fd cf od rn w = (Raise AxisError, w')).
Proof.
  intros Hb Hck Hmc Hsel Hr Hglob.
  assert (sorted (glob_features (fs w) fd) = []) as Hpaths by by rewrite Hglob.
  split.
  - intros res w' Hrun.
    apply predict_inv in Hrun
      as [(t & Hfs & _ & _ & _ & Hres)
         |(b' & ck' & mc' & data & w2 & t & Hb' & Hck' & Hmc' & Hd & Hfs & _ & _ & _ & _ & Hrun)].
    + by destruct Hres as [->|[e ->]].
    + assert (ck' = ck) as -> by congruence. assert (mc' = mc) as -> by congruence.
      rewrite Hpaths in Hd. apply Forall2_nil_inv_l in Hd as ->.
      apply dispatch_and_export_inv in Hrun. rewrite Hsel in Hrun.
      destruct Hrun as [(e & t' & -> & -> & _)|(predictions & labels & Hp & _)]; [done|].
      rewrite predictions_of_empty in Hp by done. by destruct (rebuild_model ck).
  - intros model Hmodel Hmeta Hgo.
    destruct (predict_ok fd cf od rn w ck mc []) as (w2 & t & _ & _ & _ & _ & ->); [|done|].
    { split_and!; [by exists b|done|done|]. rewrite Hpaths. constructor. }
    rewrite dispatch_and_export_run, Hsel, predictions_of_empty, Hmodel by done. eauto.
Qed.

(** The part of C5 that holds: with no matching file and a model class that
    selects the XGB routine, the run completes when the report can be
    written, and the "predictions" object of the report is empty. *)
Lemma empty_dataset_xgb_completes fd cf od rn w b ck mc model :
  let rp := results_path_of od (default (lit "results_" ++ clock w) rn) in
  fs w !! cf = Some (File (Binary b)) -> torch_load b = Ok ck ->
  ck_model_class ck = Some mc -> ck_metadata ck <> Some None ->
  ck_all_model ck = Some model ->
  select_routine mc = Some Xgb ->
  glob_features (fs w) fd = [] ->
  fs_exists (fs w) rp = false ->
  is_dir (fs w) (removelast rp) = true ->
  exists w', predict fd cf od rn w = (Ok Done, w')
    /\ fs w' = <[rp := File (Json (JObj (report [] cf mc)))]> (fs w)
    /\ dict_get (lit "predictions") (report [] cf mc) = Some (JObj []).
Proof.
  intros rp Hb Hck Hmc Hmeta Hmodel Hsel Hglob Hnew Hparent.
  assert (sorted (glob_features (fs w) fd) = []) as Hpaths by by rewrite Hglob.
  destruct (predict_ok fd cf od rn w ck mc []) as (w2 & t & Hfs & _ & _ & _ & ->);
    [|by left|].
  { split_and!; [by exists b|done|done|]. rewrite Hpaths. constructor. }
  fold rp. rewrite dispatch_and_export_run, Hsel. cbn [predictions_of].
  unfold predict_xgb. rewrite Hmodel. cbn.
  rewrite export_results_run. cbn. rewrite write_json_run. cbn [fs extend].
  assert (is_dir (fs w2) rp = false) as ->.
  { rewrite Hfs. unfold fs_exists in Hnew. unfold is_dir.
    apply orb_false_iff in Hnew as [-> Hnone]. apply bool_decide_eq_false in Hnone.
    destruct (fs w !! rp); [|done]. exfalso. apply Hnone. eauto. }
  rewrite Hfs, Hparent. eexists. split; [reflexivity|]. split; [done|].
  apply report_entries.
Qed.

(** C6: both neural routines run the model the checkpoint describes and
    nothing else: the class is the attribute of [morphoclass.models] named
    by what follows the last dot of "model_class" (the whole string when
    it has no dot), it is instantiated with "model_params", and its state
    is loaded from ["all"]["model"]; the GNN routine then puts it in
    evaluation mode. *)
Theorem C6_model_rebuilt_from_checkpoint dataset ck :
  predict_gnn dataset ck
  = (model ← rebuild_model ck;
     logits ← run_model forward_sample (model_eval model) (ds_iter dataset);
     np_array logits)
  /\ predict_cnn dataset ck
     = (model ← rebuild_model ck;
        logits ← run_model forward_image model (sample_image <$> ds_iter dataset);
        (if bool_decide (0 < length logits) then np_concatenate logits
         else np_array logits))
  /\ (forall model_class,
        (46%N ∉ after_last_dot model_class)
        /\ (model_class = after_last_dot model_class
            \/ exists before, model_class = before ++ 46%N :: after_last_dot model_class)).
Proof.
  split_and!.
  - apply predict_gnn_rebuild.
  - apply predict_cnn_rebuild.
  - apply after_last_dot_spec.
Qed.

(** C7: when the results file is there already, [predict] asks and reads
    one line.  Unless the line, stripped and lowercased, is "y", the run
    stops at once: the files are as they were and nothing was loaded,
    called or written.  When it is "y" (the stripped line is "y" or "Y"),
    the run goes on with the body of [predict]. *)
Theorem C7_overwrite_needs_confirmation fd cf od rn w response rest :
  let rp := results_path_of od (default (lit "results_" ++ clock w) rn) in
  let asked := headers fd cf rp ++ [Echo (msg_overwrite rp); ReadLine response] in
  fs_exists (fs w) rp = true ->
  stdin w = response :: rest ->
  (lower (strip response) <> lit "y" ->
     exists w', predict fd cf od rn w = (Ok Stopped, w')
       /\ fs w' = fs w
       /\ trace w' = trace w ++ asked ++ [Echo (lit "Stopping.")]
       /\ loads (asked ++ [Echo (lit "Stopping.")]) = []
       /\ invocations (asked ++ [Echo (lit "Stopping.")]) = []
       /\ writes (asked ++ [Echo (lit "Stopping.")]) = [])
  /\ (lower (strip response) = lit "y" ->
       predict fd cf od rn w
       = predict_body fd cf rp
           (extend (with_stdin w rest)
              (asked ++ [Echo (lit "You chose to overwrite, proceeding...")])))
  /\ (lower (strip response) = lit "y"
       <-> strip response = lit "y" \/ strip response = lit "Y").
Proof.
  intros rp asked Hex Hin. rewrite predict_run. fold rp. rewrite Hex, Hin. cbn zeta.
  fold asked. unfold pystr_eqb. split_and!.
  - intros Hy. rewrite bool_decide_eq_false_2 by done.
    eexists. split; [reflexivity|]. done.
  - intros Hy. by rewrite bool_decide_eq_true_2 by done.
  - apply lower_is_y.
Qed.

(** C8: in the GNN and CNN branches the predictions are the argmax along
    axis 1 of the logits the routine returned: for a matrix of logits with
    [n] rows (and no NaN) there are [n] predictions, the [i]-th being the
    index of the first maximum of row [i].  In the XGB branch the
    predictions are the list [predict_xgb] returned, as it is. *)
Theorem C8_predictions_are_argmax dataset ck mc w r logits n c :
  select_routine mc = Some r ->
  (r = Gnn /\ predict_gnn dataset ck = Ok logits)
  \/ (r = Cnn /\ predict_cnn dataset ck = Ok logits) ->
  shape logits = [n; c] -> wf_array logits -> c <> 0 ->
  Forall (fun x => entry_isnan x = false) (flat logits) ->
  (forall x y, entry_isnan x = false -> entry_isnan y = false ->
     entry_le x y = true \/ entry_le y x = true) ->
  (forall x y z, entry_le x y = true -> entry_le y z = true -> entry_le x z = true) ->
  (exists p preds,
     argmax_axis1 entry_le entry_isnan logits = Ok p
     /\ (compute_predictions dataset ck mc w).1 = Ok (Some (PArray p))
     /\ iter_predictions (PArray p) = Ok preds
     /\ length preds = n
     /\ forall i, i < n ->
          exists k, preds !! i = Some (scalar (Z.of_nat k))
                    /\ first_max entry_le (row_of logits c i) k)
  /\ (forall mc', select_routine mc' = Some Xgb ->
        (compute_predictions dataset ck mc' w).1
        = ((fun l => Some (PList l)) <$> predict_xgb dataset ck)).
Proof.
  intros Hsel Hlogits Hshape Hwf Hc Hnan Htotal Htrans. split.
  - pose proof (argmax_axis1_matrix entry_le entry_isnan logits n c Hshape Hc) as Harg.
    eexists _, _. split; [exact Harg|].
    assert (length (flat logits) = n * c) as Hlen.
    { unfold wf_array in Hwf. rewrite Hwf, Hshape. cbn [size_of foldr]. lia. }
    split_and!.
    + rewrite compute_predictions_run, Hsel. cbn [fst].
      destruct Hlogits as [[-> Hl]|[-> Hl]]; cbn [predictions_of];
        rewrite Hl; cbn [mbind result_bind]; by rewrite Harg.
    + cbn [iter_predictions]. apply items_vector. by rewrite length_fmap, length_seq.
    + by rewrite !length_fmap, length_seq.
    + intros i Hi. exists (argmax_list entry_le entry_isnan (lane logits c 1 i 0)).
      rewrite !list_lookup_fmap, lookup_seq_lt by done.
      split; [reflexivity|]. rewrite (lane_row logits n c i Hlen Hi).
      apply argmax_list_first_max; [done|done| |].
      * unfold row_of. intros Hnil. apply (f_equal length) in Hnil.
        rewrite length_take, length_drop in Hnil. cbn in Hnil. nia.
      * unfold row_of. by apply Forall_take, Forall_drop.
  - intros mc' Hsel'. rewrite compute_predictions_run, Hsel'. cbn [fst predictions_of].
    by destruct (predict_xgb dataset ck).
Qed.


End claims.

(** * Further properties of the command *)

Section more.
Context `{Externals}.

(** ** What a run leaves of the world *)

(** A run of the body of [predict] leaves the clock and the input as they
    were; it changes the files only by writing the report, at its end. *)
Lemma predict_body_frame fd cf rp w r w' :
  predict_body fd cf rp w = (r, w') ->
  clock w' = clock w /\ stdin w' = stdin w
  /\ (exists t, trace w' = trace w ++ t
        /\ (r <> Ok Done -> writes t = [])
        /\ (r = Ok Done -> writes t = [rp]))
  /\ (r <> Ok Done -> fs w' = fs w)
  /\ (r = Ok Done -> exists j, fs w' = <[rp := File (Json j)]> (fs w)).
Proof.
  intros Hrun.
  apply predict_body_run in Hrun
    as [(e & t & -> & -> & _ & Hw)
       |(b & ck & mc & data & t & _ & _ & _ & _ & _ & Hw & _ & Hrun)].
  { split_and!; try done. exists t. by split_and!. }
  apply dispatch_and_export_inv in Hrun.
  destruct (select_routine mc) as [rt|].
  - destruct Hrun as [(e & t' & -> & -> & _ & Hw' & _)
                     |(predictions & labels & _ & _ & -> & Hfs & Hin & Hcl & Htr)].
    + split_and!; try done. exists (t ++ Invoke rt (MorphologyDataset data) ck :: t').
      cbn. rewrite <- app_assoc. split_and!; [done| |done].
      intros _. rewrite writes_app, Hw. cbn. exact Hw'.
    + split_and!; try done.
      * eexists. rewrite Htr. cbn. rewrite <- app_assoc. split_and!; [done|done|].
        intros _. by rewrite writes_app, Hw.
      * intros _. by eexists.
  - destruct Hrun as [-> ->]. split_and!; try done.
    exists (t ++ [Echo (msg_not_recognized mc)]). cbn. rewrite <- app_assoc.
    split_and!; [done| |done]. intros _. by rewrite writes_app, Hw.
Qed.

(** The clock after a run, and the report after a run that completed. *)
Lemma predict_done_report fd cf od rn w :
  let rp := results_path_of od (default (lit "results_" ++ clock w) rn) in
  let run := predict fd cf od rn w in
  run.1 = Ok Done ->
  clock run.2 = clock w /\ exists j, fs run.2 !! rp = Some (File (Json j)).
Proof.
  intros rp run Hdone. unfold run in *. rewrite predict_run in *. fold rp in Hdone |- *.
  cbn zeta in *.
  assert (forall w1, clock w1 = clock w ->
            (predict_body fd cf rp w1).1 = Ok Done ->
            clock (predict_body fd cf rp w1).2 = clock w
            /\ exists j, fs (predict_body fd cf rp w1).2 !! rp = Some (File (Json j)))
    as Hbody.
  { intros w1 Hcl Hd. destruct (predict_body fd cf rp w1) as [r w'] eqn:Hrun.
    cbn [fst snd] in *. subst r.
    apply predict_body_frame in Hrun as (Hcl' & _ & _ & _ & Hnew).
    split; [congruence|]. destruct (Hnew eq_refl) as [j ->]. exists j.
    apply lookup_insert_eq. }
  destruct (fs_exists (fs w) rp); [|by apply Hbody].
  destruct (stdin w) as [|response rest]; [done|].
  destruct (pystr_eqb (lower (strip response)) (lit "y")); [|done].
  by apply Hbody.
Qed.

(** X1: a run of [predict], however it ends, leaves every file other than
    the report as it was, and leaves the clock as it was.  A run that does
    not complete writes nothing at all; a run that completes writes once,
    at the results path, which then holds a JSON report. *)
Theorem predict_writes_only_the_report fd cf od rn w :
  let rp := results_path_of od (default (lit "results_" ++ clock w) rn) in
  let run := predict fd cf od rn w in
  clock run.2 = clock w
  /\ (forall p, p <> rp -> fs run.2 !! p = fs w !! p)
  /\ (exists t, trace run.2 = trace w ++ t
        /\ (run.1 <> Ok Done -> writes t = [] /\ fs run.2 = fs w)
        /\ (run.1 = Ok Done ->
            writes t = [rp] /\ exists j, fs run.2 !! rp = Some (File (Json j)))).
Proof.
  intros rp run. unfold run. rewrite predict_run. fold rp. cbn zeta.
  assert (forall w1 t1,
            fs w1 = fs w -> clock w1 = clock w -> trace w1 = trace w ++ t1 ->
            writes t1 = [] ->
            let run := predict_body fd cf rp w1 in
            clock run.2 = clock w
            /\ (forall p, p <> rp -> fs run.2 !! p = fs w !! p)
            /\ (exists t, trace run.2 = trace w ++ t
                  /\ (run.1 <> Ok Done -> writes t = [] /\ fs run.2 = fs w)
                  /\ (run.1 = Ok Done ->
                      writes t = [rp]
                      /\ exists j, fs run.2 !! rp = Some (File (Json j))))) as Hbody.
  { intros w1 t1 Hfs Hcl Htr Hw1. cbn zeta.
    destruct (predict_body fd cf rp w1) as [r w'] eqn:Hrun. cbn [fst snd].
    apply predict_body_frame in Hrun as (Hcl' & _ & (t & Htr' & Hno & Hyes) & Hsame & Hnew).
    split_and!.
    - congruence.
    - intros p Hp.
      assert (r = Ok Done \/ r <> Ok Done) as [Hr|Hr]
        by (destruct r as [[]|]; auto).
      + destruct (Hnew Hr) as [j ->]. by rewrite lookup_insert_ne, Hfs.
      + by rewrite (Hsame Hr), Hfs.
    - exists (t1 ++ t). rewrite Htr', Htr, <- app_assoc. split_and!; [done| |].
      + intros Hr. rewrite writes_app, Hw1, (Hno Hr), (Hsame Hr). done.
      + intros Hr. rewrite writes_app, Hw1, (Hyes Hr). split; [done|].
        destruct (Hnew Hr) as [j ->]. exists j. apply lookup_insert_eq. }
  destruct (fs_exists (fs w) rp).
  - destruct (stdin w) as [|response rest].
    + cbn. split_and!; [done|done|]. eexists. by split_and!.
    + destruct (pystr_eqb (lower (strip response)) (lit "y")).
      * by eapply Hbody.
      * cbn. split_and!; [done|done|]. eexists. by split_and!.
  - by eapply Hbody.
Qed.

(** X2: [predict] reads standard input only when the results file is
    already there, and then exactly one line.  When the file is there and
    the input is at its end, the run raises [EOFError] with no input file
    loaded and no file changed. *)
Theorem predict_reads_one_line_at_most fd cf od rn w :
  let rp := results_path_of od (default (lit "results_" ++ clock w) rn) in
  let run := predict fd cf od rn w in
  stdin run.2 = (if fs_exists (fs w) rp then tail (stdin w) else stdin w)
  /\ (fs_exists (fs w) rp = true -> stdin w = [] ->
      run.1 = Raise EOFError /\ fs run.2 = fs w
      /\ exists t, trace run.2 = trace w ++ t /\ loads t = []).
Proof.
  intros rp run. unfold run. rewrite predict_run. fold rp. cbn zeta.
  assert (forall w1, (predict_body fd cf rp w1).2.(stdin) = stdin w1) as Hbody.
  { intros w1. destruct (predict_body fd cf rp w1) as [r w'] eqn:Hrun.
    by apply predict_body_frame in Hrun as (_ & ? & _). }
  destruct (fs_exists (fs w) rp).
  - destruct (stdin w) as [|response rest] eqn:Hin.
    + split; [done|]. intros _ _. cbn. split_and!; [done|done|]. by eexists.
    + split; [|done].
      destruct (pystr_eqb (lower (strip response)) (lit "y")); [|done].
      by rewrite Hbody.
  - split; [|done]. by rewrite Hbody.
Qed.

(** X3: running [predict] again, at any later time, after a run that
    completed with the results name given.  The second run, with the same
    output directory and name, finds the report of the first and asks
    before overwriting; on any answer other than y it stops, the report of
    the first run still in place. *)
Theorem predict_twice_asks fd cf od name w w' later response rest :
  predict fd cf od (Some name) w = (Ok Done, w') ->
  fs later = fs w' ->
  stdin later = response :: rest ->
  lower (strip response) <> lit "y" ->
  let rp := results_path_of od name in
  let again := predict fd cf od (Some name) later in
  again.1 = Ok Stopped
  /\ fs again.2 = fs w'
  /\ stdin again.2 = rest
  /\ (exists j, fs again.2 !! rp = Some (File (Json j)))
  /\ trace again.2
     = trace later ++ headers fd cf rp
         ++ [Echo (msg_overwrite rp); ReadLine response; Echo (lit "Stopping.")].
Proof.
  intros Hrun Hfs Hin Hno rp again.
  pose proof (predict_done_report fd cf od (Some name) w) as Hfirst.
  cbn zeta in Hfirst. rewrite Hrun in Hfirst. unfold default in Hfirst.
  cbn [fst snd from_option id] in Hfirst.
  fold rp in Hfirst. destruct (Hfirst eq_refl) as (_ & j & Hrp).
  unfold again. rewrite predict_run. unfold default; cbn [from_option id]. fold rp.
  rewrite Hfs, Hin.
  assert (fs_exists (fs w') rp = true) as ->.
  { unfold fs_exists. rewrite Hrp. apply orb_true_r. }
  unfold pystr_eqb. rewrite bool_decide_eq_false_2 by done.
  cbn. rewrite Hfs, Hrp. split_and!; try done. by exists j.
Qed.

(** ** The end of a run, from its inputs *)







(** ** Failures before the dispatch *)



(** X6: a matching entry of the features directory that cannot be loaded
    (a directory named like a feature file, a file [MorphologyData.load]
    rejects) keeps the run from the dispatch, whatever the other entries
    are: the run raises, calls no routine and changes no file, unless it
    was stopped at the question. *)
Theorem predict_unloadable_feature_file fd cf od rn w p :
  let run := predict fd cf od rn w in
  p ∈ glob_features (fs w) fd ->
  (forall sample, ~ loaded_from (fs w) p sample) ->
  (run.1 = Ok Stopped \/ exists e, run.1 = Raise e)
  /\ fs run.2 = fs w
  /\ exists t, trace run.2 = trace w ++ t /\ invocations t = [] /\ writes t = [].
Proof.
  intros run Hp Hbad. unfold run. destruct (predict fd cf od rn w) as [r w'] eqn:Hrun.
  apply predict_inv in Hrun. cbn zeta in Hrun. cbn [fst snd].
  destruct Hrun as [(t & Hfs & Htr & Hi & Hw & Hr)
                   |(b & ck & mc & data & w2 & t & _ & _ & _ & Hdata & _)].
  { split_and!; [done|done|]. by exists t. }
  assert (p ∈ sorted (glob_features (fs w) fd)) as Hp'.
  { unfold sorted. by rewrite merge_sort_Permutation. }
  apply list_elem_of_lookup in Hp' as [i Hi].
  destruct (Forall2_lookup_l _ _ _ _ _ Hdata Hi) as (sample & _ & Hload).
  by destruct (Hbad sample).
Qed.

(** ** The export loop *)

Lemma zip_fst_take {A B} (l : list A) (k : list B) : (zip l k).*1 = take (length k) l.
Proof.
  revert k. induction l as [|a l IH]; intros [|b k]; cbn; try done.
  by rewrite IH.
Qed.
Lemma zip_snd_take {A B} (l : list A) (k : list B) : (zip l k).*2 = take (length l) k.
Proof.
  revert k. induction l as [|a l IH]; intros [|b k]; cbn; try done.
  by rewrite IH.
Qed.

Lemma dict_set_keys {V} (k : pystr) (v : V) (d : pydict V) :
  (dict_set k v d).*1 = if decide (k ∈ d.*1) then d.*1 else d.*1 ++ [k].
Proof.
  induction d as [|[k' v'] d IH]; [done|]. cbn [dict_set].
  case_bool_decide as Hk.
  - subst k'. cbn. rewrite decide_True by left. done.
  - cbn. rewrite IH. destruct (decide (k ∈ d.*1)) as [Hin|Hin].
    + rewrite decide_True by (by right). done.
    + rewrite decide_False; [done|]. intros [?|?]%elem_of_cons; [congruence|done].
Qed.

(** The keys of [prediction_labels] after the loop: those it had, then new
    ones in the order of the samples, none twice. *)
Lemma label_loop_keys_order y_to_label pairs acc d :
  label_loop y_to_label pairs acc = Ok d ->
  exists new,
    d.*1 = acc.*1 ++ new
    /\ sublist new (sample_path <$> pairs.*1)
    /\ (NoDup acc.*1 -> NoDup d.*1)
    /\ (forall sample, sample ∈ pairs.*1 -> sample_path sample ∈ d.*1).
Proof.
  revert acc. induction pairs as [|[s0 p0] pairs IH]; intros acc; simpl.
  - intros [= <-]. exists []. rewrite app_nil_r. split_and!; [done|done|done|].
    by intros sample ?%elem_of_nil.
  - intros (lbl0 & Hl0 & Hloop)%result_bind_Ok.
    destruct (IH _ Hloop) as (new & Hkeys & Hsub & Hnd & Hin).
    rewrite dict_set_keys in Hkeys, Hnd.
    destruct (decide (sample_path s0 ∈ acc.*1)) as [Hold|Hnew].
    + exists new. split_and!; [done|by apply sublist_cons|done|].
      intros sample [->|?]%elem_of_cons; [|by apply Hin].
      rewrite Hkeys. apply elem_of_app. by left.
    + exists (sample_path s0 :: new). split_and!.
      * by rewrite Hkeys, <- app_assoc.
      * by apply sublist_skip.
      * intros Hacc. apply Hnd. apply NoDup_app. split_and!; [done| |apply NoDup_singleton].
        intros x Hx ->%list_elem_of_singleton. done.
      * intros sample [->|?]%elem_of_cons; [|by apply Hin].
        rewrite Hkeys. apply elem_of_app. left. apply elem_of_app. right. by left.
Qed.

(** The loop ends without an exception only when every prediction is a
    class with a label. *)
Lemma label_loop_Ok_all y_to_label pairs acc d :
  label_loop y_to_label pairs acc = Ok d ->
  Forall (fun sp => exists k label, sp.2 = scalar k /\ y_to_label !! k = Some label) pairs.
Proof.
  revert acc. induction pairs as [|[s0 p0] pairs IH]; intros acc; simpl; [done|].
  intros (lbl0 & Hl0 & Hloop)%result_bind_Ok. constructor; [|by eapply IH].
  apply lookup_label_Ok in Hl0 as (k & -> & ?). by exists k, lbl0.
Qed.


(** A run that completes, from its start to the report. *)
Lemma predict_done_inv fd cf od rn w w' :
  predict fd cf od rn w = (Ok Done, w') ->
  let rp := results_path_of od (default (lit "results_" ++ clock w) rn) in
  exists ck mc data rt predictions labels,
    Forall2 (loaded_from (fs w)) (sorted (glob_features (fs w) fd)) data
    /\ select_routine mc = Some rt
    /\ predictions_of rt (MorphologyDataset data) ck = Ok predictions
    /\ labels_of (MorphologyDataset data) predictions = Ok labels
    /\ fs w' = <[rp := File (Json (JObj (report labels cf mc)))]> (fs w).
Proof.
  intros Hrun rp. apply predict_inv in Hrun. fold rp in Hrun.
  destruct Hrun as [(t & _ & _ & _ & _ & [?|[e ?]])
                   |(b & ck & mc & data & w2 & t & _ & _ & _ & Hdata & Hfs & _ & _ & _ & _ & Hrun)];
    [done|done|].
  apply dispatch_and_export_inv in Hrun.
  destruct (select_routine mc) as [rt|] eqn:Hrt; [|by destruct Hrun].
  destruct Hrun as [(e & t' & ? & _)|(predictions & labels & Hp & Hl & _ & Hfs' & _)]; [done|].
  exists ck, mc, data, rt, predictions, labels. by rewrite Hfs', Hfs.
Qed.

(** X7: the report of a run that completed.  Its keys are predictions,
    checkpoint_path and model, in this order.  The keys of the object
    under predictions are the paths of the samples that zip paired with a
    prediction, each once, in the order of the samples; so the object has
    at most as many entries as there are feature files.  Every paired
    prediction is a class that [y_to_label] has a label for. *)
Theorem predict_report_shape fd cf od rn w w' :
  predict fd cf od rn w = (Ok Done, w') ->
  let rp := results_path_of od (default (lit "results_" ++ clock w) rn) in
  exists data preds results labels,
    Forall2 (loaded_from (fs w)) (sorted (glob_features (fs w) fd)) data
    /\ fs w' !! rp = Some (File (Json (JObj results)))
    /\ results.*1 = [lit "predictions"; lit "checkpoint_path"; lit "model"]
    /\ dict_get (lit "predictions") results = Some (JObj labels)
    /\ NoDup labels.*1
    /\ sublist labels.*1 (sample_path <$> take (length preds) data)
    /\ (forall sample, sample ∈ take (length preds) data -> sample_path sample ∈ labels.*1)
    /\ length labels <= length (glob_features (fs w) fd)
    /\ Forall (fun pred => exists k label,
                 pred = scalar k /\ guess_y_to_label data !! k = Some label)
              (take (length data) preds).
Proof.
  intros Hrun rp.
  destruct (predict_done_inv _ _ _ _ _ _ Hrun)
    as (ck & mc & data & rt & predictions & labels & Hdata & Hrt & Hp & Hl & Hfs).
  fold rp in Hfs. unfold labels_of in Hl.
  apply result_bind_Ok in Hl as (preds & Hpreds & Hloop). cbn [ds_data ds_y_to_label MorphologyDataset] in Hloop.
  destruct (label_loop_keys_order _ _ _ _ Hloop) as (new & Hkeys & Hsub & Hnd & Hin).
  cbn in Hkeys. subst new. rewrite zip_fst_take in Hsub, Hin.
  exists data, preds, (report labels cf mc), labels. split_and!.
  - done.
  - rewrite Hfs. apply lookup_insert_eq.
  - by vm_compute.
  - apply report_entries.
  - apply Hnd. constructor.
  - done.
  - done.
  - apply sublist_length in Hsub. rewrite !length_fmap, length_take in Hsub.
    apply Forall2_length in Hdata. unfold sorted in Hdata.
    rewrite merge_sort_Permutation in Hdata. lia.
  - apply label_loop_Ok_all in Hloop.
    rewrite <- zip_snd_take. by apply Forall_fmap.
Qed.


(** ** The three routines *)

Lemma np_array_Ok {A} (l : list (ndarray A)) a :
  np_array l = Ok a -> l <> [] ->
  exists s, shape a = length l :: s /\ Forall (fun b => shape b = s) l
            /\ flat a = concat (flat <$> l).
Proof.
  unfold np_array. destruct l as [|a0 l]; [done|].
  destruct (forallb _ _) eqn:Hall; [|done]. intros [= <-] _.
  exists (shape a0). split_and!; [done| |done].
  apply Forall_forall. intros b Hb. apply list_elem_of_In in Hb.
  rewrite forallb_forall in Hall. specialize (Hall b Hb).
  by apply bool_decide_eq_true in Hall.
Qed.

Lemma np_concatenate_Ok {A} (l : list (ndarray A)) a :
  np_concatenate l = Ok a ->
  exists rest, shape a = sum_list ((fun b => hd 0 (shape b)) <$> l) :: rest
               /\ Forall (fun b => exists rows, shape b = rows :: rest) l
               /\ flat a = concat (flat <$> l).
Proof.
  unfold np_concatenate. destruct l as [|a0 l]; [done|].
  destruct (shape a0) as [|r0 rest] eqn:Hs0; [done|].
  destruct (forallb _ _) eqn:Hall; [|done]. intros [= <-].
  exists rest. split_and!; [done| |done].
  apply Forall_forall. intros b Hb. apply list_elem_of_In in Hb.
  rewrite forallb_forall in Hall. specialize (Hall b Hb).
  apply bool_decide_eq_true in Hall as [Ht Hne].
  destruct (shape b) as [|rows ?]; [done|]. exists rows. cbn in Ht. by subst.
Qed.

Lemma sum_list_ones {A} (f : A -> nat) (l : list A) :
  Forall (fun x => f x = 1) l -> sum_list (f <$> l) = length l.
Proof. induction 1 as [|x l Hx _ IH]; [done|]. cbn. by rewrite Hx, IH. Qed.

(** The first failure of a list comprehension is its exception. *)
Lemma result_mapM_Raise {A B} (f : A -> result B) (l : list A) i x e :
  l !! i = Some x -> f x = Raise e ->
  (forall j y, j < i -> l !! j = Some y -> exists b, f y = Ok b) ->
  mapM f l = Raise e.
Proof.
  revert i. induction l as [|a l IH]; intros i Hi He Hbefore.
  { by rewrite lookup_nil in Hi. }
  destruct i as [|i]; simpl.
  - injection Hi as ->. by rewrite He.
  - destruct (Hbefore 0 a) as [b ->]; [lia|done|]. cbn.
    rewrite (IH i); [done|done|done|].
    intros j y Hj Hy. apply (Hbefore (S j) y); [lia|done].
Qed.

(** X9: the CNN branch has one prediction for every row the model
    returned, over all the images: as many as there are samples when the
    model returns one row for every image. *)
Theorem cnn_predictions_count dataset ck predictions preds :
  predictions_of Cnn dataset ck = Ok predictions ->
  iter_predictions predictions = Ok preds ->
  exists model outputs,
    rebuild_model ck = Ok model
    /\ run_model forward_image model (sample_image <$> ds_iter dataset) = Ok outputs
    /\ length outputs = length (ds_data dataset)
    /\ length preds = sum_list ((fun y => hd 0 (shape y)) <$> outputs)
    /\ (Forall (fun y => hd 0 (shape y) = 1) outputs ->
        length preds = length (ds_data dataset)).
Proof.
  cbn [predictions_of].
  intros (logits & Hl & (p & Hp & ->)%result_fmap_Ok)%result_bind_Ok Hit.
  cbn [iter_predictions] in Hit.
  rewrite predict_cnn_rebuild in Hl.
  apply result_bind_Ok in Hl as (model & Hmodel & Hl).
  apply result_bind_Ok in Hl as (ys & Hys & Hl).
  pose proof (run_model_length _ _ _ _ Hys) as Hlen. rewrite length_fmap in Hlen.
  unfold ds_iter in Hlen.
  apply argmax_axis1_shape in Hp as (n & c & rest & Hs & _ & Hps).
  apply (length_items _ _ _ _ Hps) in Hit.
  assert (n = sum_list ((fun y => hd 0 (shape y)) <$> ys)) as Hn.
  { case_bool_decide.
    - apply np_concatenate_Ok in Hl as (rest' & Hs' & _). congruence.
    - destruct ys; [|cbn in *; lia]. injection Hl as <-. done. }
  exists model, ys. split_and!; [done|done|done|congruence|].
  intros Hone. rewrite Hit, Hn, <- Hlen. by apply sum_list_ones.
Qed.

(** X10: what [predict_xgb] raises.  Without ["all"]["model"] in the
    checkpoint it raises [KeyError], also for a dataset without samples;
    with it, the first sample whose image has not 10000 elements, after
    samples that gave a prediction, makes it raise [ValueError], and the
    first sample for which the model returns an empty array makes it raise
    [IndexError]. *)
Theorem predict_xgb_errors dataset ck :
  (ck_all_model ck = None -> predict_xgb dataset ck = Raise KeyError)
  /\ (forall model i sample,
        ck_all_model ck = Some model ->
        ds_iter dataset !! i = Some sample ->
        (forall j sample', j < i -> ds_iter dataset !! j = Some sample' ->
           size_of (shape (sample_image sample')) = 10000
           /\ exists y pred,
                xgb_predict model (NdArray [1; 10000] (flat (sample_image sample'))) = Ok y
                /\ first_item y = Ok pred) ->
        (size_of (shape (sample_image sample)) <> 10000 ->
         predict_xgb dataset ck = Raise ValueError)
        /\ (forall y rest,
              size_of (shape (sample_image sample)) = 10000 ->
              xgb_predict model (NdArray [1; 10000] (flat (sample_image sample))) = Ok y ->
              shape y = 0 :: rest ->
              predict_xgb dataset ck = Raise IndexError)).
Proof.
  unfold predict_xgb. split.
  - by intros ->.
  - intros model i sample -> Hi Hbefore. cbn [getitem mbind result_bind].
    assert (size_of [1; 10000] = 10000) as Hsz by (cbn [size_of foldr]; lia).
    assert (forall j y, j < i -> ds_iter dataset !! j = Some y ->
              exists b, (x ← reshape (sample_image y) [1; 10000];
                         y0 ← xgb_predict model x; first_item y0) = Ok b) as Hok.
    { intros j s' Hj Hs'. destruct (Hbefore j s' Hj Hs') as (Hsize & y & pred & Hy & Hpred).
      exists pred. unfold reshape. rewrite Hsz, bool_decide_eq_true_2 by done.
      cbn [mbind result_bind]. by rewrite Hy. }
    split.
    + intros Hsize. apply (result_mapM_Raise _ _ i sample); [done| |done].
      unfold reshape. by rewrite Hsz, bool_decide_eq_false_2.
    + intros y rest Hsize Hy Hshape. apply (result_mapM_Raise _ _ i sample); [done| |done].
      unfold reshape. rewrite Hsz, bool_decide_eq_true_2 by done.
      cbn [mbind result_bind]. rewrite Hy. cbn [mbind result_bind].
      unfold first_item. by rewrite Hshape.
Qed.

(** X11: in the GNN branch the export gets through only when the dataset
    has a sample and the model returned, for every sample, a 1-d array of
    one and the same positive length (the logits then are a matrix with a
    row per sample). *)
Theorem gnn_outputs_are_vectors dataset ck predictions labels :
  predictions_of Gnn dataset ck = Ok predictions ->
  labels_of dataset predictions = Ok labels ->
  exists model outputs c,
    rebuild_model ck = Ok model
    /\ run_model forward_sample (model_eval model) (ds_iter dataset) = Ok outputs
    /\ ds_data dataset <> []
    /\ c <> 0
    /\ Forall (fun y => shape y = [c]) outputs
    /\ predict_gnn dataset ck
       = Ok (NdArray [length (ds_data dataset); c] (concat (flat <$> outputs))).
Proof.
  cbn [predictions_of].
  intros (logits & Hl & (p & Hp & ->)%result_fmap_Ok)%result_bind_Ok Hlabels.
  pose proof Hl as Hgnn.
  rewrite predict_gnn_rebuild in Hl.
  apply result_bind_Ok in Hl as (model & Hmodel & Hl).
  apply result_bind_Ok in Hl as (ys & Hys & Hl).
  pose proof (run_model_length _ _ _ _ Hys) as Hlen. unfold ds_iter in Hlen.
  unfold argmax_axis1 in Hp.
  destruct (shape logits) as [|n [|c rest]] eqn:Hs; [done|done|].
  case_bool_decide as Hc; [done|]. injection Hp as <-.
  assert (ys <> []) as Hne.
  { intros ->. injection Hl as <-. done. }
  destruct (np_array_Ok _ _ Hl Hne) as (s & Hs' & Hall & Hflat).
  rewrite Hs in Hs'. injection Hs' as -> <-.
  unfold labels_of in Hlabels. cbn [iter_predictions items shape mbind result_bind] in Hlabels.
  apply label_loop_Ok_all in Hlabels.
  assert (ds_data dataset <> []) as Hdata.
  { intros Hnil. rewrite Hnil in Hlen. by destruct ys. }
  assert (rest = []) as ->.
  { destruct (ds_data dataset) as [|s0 data]; [done|].
    destruct ys as [|y0 ys]; [done|]. cbn in Hlabels.
    apply Forall_cons in Hlabels as [(k & label & Hk & _) _]. cbn in Hk.
    by injection Hk as -> _. }
  exists model, ys, c. split_and!; [done|done|done|done|done|].
  rewrite Hgnn. destruct logits as [sh fl]. cbn in *. by rewrite Hs, Hflat, Hlen.
Qed.

(** ** Paths *)



(** X13: the path of the report.  Its last component is what follows
    the last slash of the results name (the whole name when it has no
    slash), with .json appended; for a name without a slash the report is
    an entry of the output directory; for a name that starts with a slash
    the output directory plays no part. *)
Theorem results_path_of_spec od name :
  (exists dirs stem,
     results_path_of od name = dirs ++ [stem ++ lit ".json"]
     /\ (47%N ∉ stem)
     /\ (name = stem \/ exists before, name = before ++ 47%N :: stem))
  /\ ((47%N ∉ name) -> results_path_of od name = od ++ [name ++ lit ".json"])
  /\ (forall rest od', name = 47%N :: rest ->
        results_path_of od name = results_path_of od' name).
Proof.
  assert (47%N ∉ lit ".json") as Hj.
  { intros Hin. apply list_elem_of_In in Hin. vm_compute in Hin. intuition discriminate. }
  assert (forall stem, stem ++ lit ".json" <> [] /\ stem ++ lit ".json" <> lit ".") as Hkeep.
  { assert (length (lit ".json") = 5) as HlenJ by by vm_compute.
    assert (length (lit ".") = 1) as Hlen1 by by vm_compute.
    intros stem. split; intros Heq; apply (f_equal length) in Heq;
      rewrite length_app, HlenJ in Heq; [cbn in Heq|rewrite Hlen1 in Heq]; lia. }
  assert (forall s, 47%N ∉ s -> segments (s ++ lit ".json") = [s ++ lit ".json"]) as Hseg.
  { intros s Hs. unfold segments.
    pose proof (split_on_last 47%N (s ++ lit ".json")) as Hsplit.
    destruct (rpartition_at 47%N (s ++ lit ".json")) as [[h t]|] eqn:E.
    - apply rpartition_at_Some in E as [E _].
      assert (47%N ∈ s ++ lit ".json") as [?|?]%elem_of_app; [|done|done].
      rewrite E. apply elem_of_app. right. by left.
    - rewrite Hsplit. cbn. rewrite decide_True; [done|]. apply Hkeep. }
  split_and!.
  - unfold results_path_of, joinpath, segments.
    pose proof (split_on_last 47%N (name ++ lit ".json")) as Hsplit.
    destruct (rpartition_at 47%N (name ++ lit ".json")) as [[h t]|] eqn:E.
    + apply rpartition_at_Some in E as [E Ht].
      destruct Hsplit as (w0 & ws & Hsplit).
      assert (exists stem, t = stem ++ lit ".json" /\ name = h ++ 47%N :: stem)
        as (stem & -> & ->).
      { apply app_eq_inv in E as [(k & -> & Hk)|(k & -> & Hk)].
        - destruct k as [|c k]; cbn in Hk.
          + exfalso. apply Hj. rewrite <- Hk. by left.
          + injection Hk as <- ->. by exists k.
        - exfalso. apply Hj. rewrite Hk. apply elem_of_app. right. by left. }
      assert (forall l : list pystr,
                filter (fun seg => seg <> [] /\ seg <> lit ".") (l ++ [stem ++ lit ".json"])
                = filter (fun seg => seg <> [] /\ seg <> lit ".") l ++ [stem ++ lit ".json"])
        as Hlast.
      { intros l. rewrite filter_app. f_equal. cbn. rewrite decide_True; [done|]. apply Hkeep. }
      rewrite Hsplit, (app_comm_cons ws), Hlast.
      destruct (startswith _ _).
      * eexists _, stem. split; [done|]. split; [|right; by eexists].
        intros Hin. apply Ht. apply elem_of_app. by left.
      * eexists (od ++ _), stem. rewrite <- app_assoc. split; [done|].
        split; [|right; by eexists].
        intros Hin. apply Ht. apply elem_of_app. by left.
    + apply rpartition_at_None in E.
      assert (47%N ∉ name) as Hname.
      { intros Hin. apply E. apply elem_of_app. by left. }
      fold (segments (name ++ lit ".json")). rewrite (Hseg name Hname).
      assert (startswith (lit "/") (name ++ lit ".json") = false) as ->.
      { apply not_true_is_false. intros [t Ht]%startswith_spec.
        apply E. rewrite Ht. apply elem_of_app. left.
        apply list_elem_of_In. vm_compute. by left. }
      exists od, name. split_and!; [done|done|by left].
  - intros Hname. unfold results_path_of, joinpath. rewrite (Hseg name Hname).
    assert (startswith (lit "/") (name ++ lit ".json") = false) as ->; [|done].
    apply not_true_is_false. intros [t Ht]%startswith_spec.
    assert (47%N ∈ name ++ lit ".json") as [?|?]%elem_of_app; [|done|done].
    rewrite Ht. apply elem_of_app. left. apply list_elem_of_In. vm_compute. by left.
  - intros rest od' ->. unfold results_path_of, joinpath. cbn [app].
    destruct (startswith _ _) eqn:E; [done|].
    apply not_true_iff_false in E. destruct E.
    apply startswith_spec. exists (rest ++ lit ".json").
    assert (lit "/" = [47%N]) as -> by by vm_compute. done.
Qed.

(** ** When a run completes *)



End more.

(** * The properties on the small instance *)

Section demo_runs.
Import Demo.



(** The inputs of the run on [world_cnn]. *)
Lemma world_cnn_inputs :
  inputs_load (fs world_cnn) features_dir checkpoint_file
    (demo_ck "morphoclass.models.CNN") (lit "morphoclass.models.CNN") [sample0; sample1].
Proof.
  split_and!.
  - eexists. split; [vm_compute; reflexivity|reflexivity].
  - reflexivity.
  - discriminate.
  - assert (sorted (glob_features (fs world_cnn) features_dir)
            = [features_dir ++ [lit "a.features"]; features_dir ++ [lit "b.features"]])
      as -> by (vm_compute; reflexivity).
    repeat constructor.
    + exists (FeatureBytes (lit "m0.swc") (demo_image 3 2)). split; vm_compute; reflexivity.
    + exists (FeatureBytes (lit "m1.swc") (demo_image 1 5)). split; vm_compute; reflexivity.
Qed.

(** C2, on the CNN checkpoint: the run calls [predict_cnn], once, on the
    dataset of the two samples. *)
Lemma C2_dispatch_witness :
  select_routine (lit "morphoclass.models.CNN") = Some Cnn
  /\ exists t, trace (demo_run world_cnn).2 = trace world_cnn ++ t
       /\ invocations t = [(Cnn, dataset01, demo_ck "morphoclass.models.CNN")].
Proof.
  assert (select_routine (lit "morphoclass.models.CNN") = Some Cnn) as Hsel
    by (vm_compute; reflexivity).
  split; [exact Hsel|].
  destruct (C2_dispatch_on_model_class (H:=demo) features_dir checkpoint_file output_dir
              (Some (lit "res")) world_cnn) as (_ & _ & _ & Hcalls).
  destruct (Hcalls (demo_ck "morphoclass.models.CNN") (lit "morphoclass.models.CNN")
              [sample0; sample1] Cnn world_cnn_inputs) as [Ht _].
  - left. vm_compute. reflexivity.
  - exact Hsel.
  - exact Ht.
Defined.

(** C2 as it was stated fails on a checkpoint whose model class has none of
    the three substrings: the run loads it, reports the model as not
    recognized and calls no routine. *)
Lemma C2_counterexample_no_routine :
  fs world_unknown !! checkpoint_file
  = Some (File (Binary (CheckpointBytes (demo_ck "sklearn.RandomForest"))))
  /\ (demo_run world_unknown).1 = Ok NotRecognized
  /\ trace world_unknown = []
  /\ invocations (trace (demo_run world_unknown).2) = [].
Proof.
  split_and!; vm_compute; reflexivity.
Qed.

(** C4, on a checkpoint of a model class that is not recognized: the run leaves
    the files as they were and does not complete. *)
Lemma C4_not_recognized_witness :
  fs world_unknown !! checkpoint_file
  = Some (File (Binary (CheckpointBytes (demo_ck "sklearn.RandomForest"))))
  /\ contains (lit "ManNet") (lit "sklearn.RandomForest") = false
  /\ contains (lit "CNN") (lit "sklearn.RandomForest") = false
  /\ contains (lit "XGB") (lit "sklearn.RandomForest") = false
  /\ fs (demo_run world_unknown).2 = fs world_unknown
  /\ (demo_run world_unknown).1 <> Ok Done
  /\ exists w', demo_run world_unknown = (Ok NotRecognized, w').
Proof.
  assert (fs world_unknown !! checkpoint_file
          = Some (File (Binary (CheckpointBytes (demo_ck "sklearn.RandomForest")))))
    as Hb by (vm_compute; reflexivity).
  assert (contains (lit "ManNet") (lit "sklearn.RandomForest") = false) as H1
    by (vm_compute; reflexivity).
  assert (contains (lit "CNN") (lit "sklearn.RandomForest") = false) as H2
    by (vm_compute; reflexivity).
  assert (contains (lit "XGB") (lit "sklearn.RandomForest") = false) as H3
    by (vm_compute; reflexivity).
  destruct (C4_model_not_recognized (H:=demo) features_dir checkpoint_file output_dir
              (Some (lit "res")) world_unknown _ (demo_ck "sklearn.RandomForest")
              (lit "sklearn.RandomForest") Hb eq_refl eq_refl H1 H2 H3) as [Hframe Hgo].
  destruct (Hframe (demo_run world_unknown).1 (demo_run world_unknown).2) as (Hfs & Hr & _).
  { unfold demo_run. by destruct (predict _ _ _ _ _). }
  destruct (Hgo [sample0; sample1]) as [w' Hrun].
  - discriminate.
  - assert (sorted (glob_features (fs world_unknown) features_dir)
            = [features_dir ++ [lit "a.features"]; features_dir ++ [lit "b.features"]])
      as -> by (vm_compute; reflexivity).
    repeat constructor.
    + exists (FeatureBytes (lit "m0.swc") (demo_image 3 2)). split; vm_compute; reflexivity.
    + exists (FeatureBytes (lit "m1.swc") (demo_image 1 5)). split; vm_compute; reflexivity.
  - left. vm_compute. reflexivity.
  - split_and!; try assumption. by exists w'.
Defined.

(** C5, with no feature file and a CNN checkpoint: the run ends with
    [AxisError]. *)
Lemma C5_failing_input :
  glob_features (fs world_cnn_empty) features_dir = []
  /\ select_routine (lit "morphoclass.models.CNN") = Some Cnn
  /\ exists w', demo_run world_cnn_empty = (Raise AxisError, w').
Proof.
  assert (glob_features (fs world_cnn_empty) features_dir = []) as Hglob
    by (vm_compute; reflexivity).
  assert (select_routine (lit "morphoclass.models.CNN") = Some Cnn) as Hsel
    by (vm_compute; reflexivity).
  assert (fs world_cnn_empty !! checkpoint_file
          = Some (File (Binary (CheckpointBytes (demo_ck "morphoclass.models.CNN")))))
    as Hb by (vm_compute; reflexivity).
  destruct (C5_empty_dataset_neural_routines_fail (H:=demo) features_dir checkpoint_file output_dir
              (Some (lit "res")) world_cnn_empty _ (demo_ck "morphoclass.models.CNN")
              (lit "morphoclass.models.CNN") Cnn Hb eq_refl eq_refl Hsel) as [_ Hraise];
    [discriminate|exact Hglob|].
  destruct (Hraise ()) as [w' Hrun].
  - vm_compute. reflexivity.
  - discriminate.
  - left. vm_compute. reflexivity.
  - split_and!; [exact Hglob|exact Hsel|]. by exists w'.
Defined.

(** No feature file and an XGBoost checkpoint: the run completes. *)
Lemma empty_dataset_xgb_witness :
  exists w', demo_run (demo_world "XGBClassifier" [] []) = (Ok Done, w')
    /\ fs w' !! results_path
       = Some (File (Json (JObj (report [] checkpoint_file (lit "XGBClassifier"))))).
Proof.
  destruct (empty_dataset_xgb_completes (H:=demo) features_dir checkpoint_file output_dir
              (Some (lit "res")) (demo_world "XGBClassifier" [] [])
              (CheckpointBytes (demo_ck "XGBClassifier")) (demo_ck "XGBClassifier")
              (lit "XGBClassifier") ())
    as (w' & Hrun & Hfs & _); try (vm_compute; reflexivity); [discriminate|].
  exists w'. split; [exact Hrun|]. rewrite Hfs. apply lookup_insert_eq.
Defined.

(** C7, when the report is there already and the answer is "n": the run
    stops. *)
Lemma C7_overwrite_witness :
  fs_exists (fs world_existing) results_path = true
  /\ stdin world_existing = [lit "n"]
  /\ lower (strip (lit "n")) <> lit "y"
  /\ exists w', demo_run world_existing = (Ok Stopped, w')
                /\ fs w' = fs world_existing.
Proof.
  assert (fs_exists (fs world_existing) results_path = true) as Hex
    by (vm_compute; reflexivity).
  assert (lower (strip (lit "n")) <> lit "y") as Hn by (vm_compute; discriminate).
  destruct (C7_overwrite_needs_confirmation (H:=demo) features_dir checkpoint_file output_dir
              (Some (lit "res")) world_existing (lit "n") [] Hex eq_refl) as (Hstop & _ & _).
  destruct (Hstop Hn) as (w' & Hrun & Hfs & _).
  split_and!; [exact Hex|reflexivity|exact Hn|]. exists w'. by split.
Defined.

(** C8, on the logits [[3, 2], [1, 5]] of the CNN on the two samples: there
    are two predictions. *)
Lemma C8_argmax_witness :
  select_routine (lit "morphoclass.models.CNN") = Some Cnn
  /\ predict_cnn dataset01 (demo_ck "morphoclass.models.CNN")
     = Ok (NdArray [2; 2] [3; 2; 1; 5]%Z)
  /\ exists p preds,
       argmax_axis1 Z.leb (fun _ => false) (NdArray [2; 2] [3; 2; 1; 5]%Z) = Ok p
       /\ iter_predictions (PArray p) = Ok preds
       /\ length preds = 2.
Proof.
  assert (select_routine (lit "morphoclass.models.CNN") = Some Cnn) as Hsel
    by (vm_compute; reflexivity).
  assert (predict_cnn dataset01
            (demo_ck "morphoclass.models.CNN")
          = Ok (NdArray [2; 2] [3; 2; 1; 5]%Z)) as Hlogits
    by (vm_compute; reflexivity).
  destruct (C8_predictions_are_argmax (H:=demo) dataset01
              (demo_ck "morphoclass.models.CNN") (lit "morphoclass.models.CNN")
              world_cnn Cnn (NdArray [2; 2] [3; 2; 1; 5]%Z) 2 2
              Hsel (or_intror (conj eq_refl Hlogits)) eq_refl eq_refl)
    as [(p & preds & Hp & _ & Hit & Hlen & _) _].
  - discriminate.
  - repeat constructor.
  - intros x y _ _. cbn. rewrite !Z.leb_le. lia.
  - intros x y z. cbn. rewrite !Z.leb_le. lia.
  - split_and!; [exact Hsel|exact Hlogits|]. by exists p, preds.
Defined.


End demo_runs.

(** * The further properties on the small instance *)

Import Demo Cases.



(** The run on the CNN world completes. *)
Lemma run_result {A B} (run : A * B) (r : A) : run.1 = r -> run = (r, run.2).
Proof. destruct run. cbn. congruence. Qed.

Lemma world_cnn_done : demo_run world_cnn = (Ok Done, (demo_run world_cnn).2).
Proof. apply run_result. vm_compute. reflexivity. Qed.

Lemma fs_with_stdin (w : World) lines : fs (with_stdin w lines) = fs w.
Proof. reflexivity. Qed.
Lemma stdin_with_stdin (w : World) lines : stdin (with_stdin w lines) = lines.
Proof. reflexivity. Qed.

(** X3, after the run on the CNN world: the second run, answered with
    "n", stops and leaves the files as the first run left them. *)
Lemma predict_twice_witness :
  demo_run world_cnn = (Ok Done, (demo_run world_cnn).2)
  /\ (demo_run (with_stdin (demo_run world_cnn).2 [lit "n"])).1 = Ok Stopped
  /\ fs (demo_run (with_stdin (demo_run world_cnn).2 [lit "n"])).2
     = fs (demo_run world_cnn).2.
Proof.
  split; [exact world_cnn_done|].
  destruct (predict_twice_asks (H:=demo) features_dir checkpoint_file output_dir (lit "res")
              world_cnn (demo_run world_cnn).2
              (with_stdin (demo_run world_cnn).2 [lit "n"]) (lit "n") []
              world_cnn_done (fs_with_stdin _ _) (stdin_with_stdin _ _))
    as (Hstop & Hfs & _).
  - vm_compute. discriminate.
  - split; [exact Hstop|exact Hfs].
Defined.



(** X6, on a features directory with a directory named x.features: the
    run raises and leaves the files as they were. *)
Lemma predict_bad_entry_witness :
  bad_entry ∈ glob_features (fs world_bad_entry) features_dir
  /\ fs world_bad_entry !! bad_entry = Some Dir
  /\ ((demo_run world_bad_entry).1 = Ok Stopped
      \/ exists e, (demo_run world_bad_entry).1 = Raise e)
  /\ fs (demo_run world_bad_entry).2 = fs world_bad_entry.
Proof.
  assert (bad_entry ∈ glob_features (fs world_bad_entry) features_dir) as Hin.
  { apply elem_of_glob_features. split_and!.
    - vm_compute. reflexivity.
    - exists Dir. vm_compute. reflexivity.
    - exists (lit "x"). vm_compute. reflexivity. }
  assert (fs world_bad_entry !! bad_entry = Some Dir) as Hdir by (vm_compute; reflexivity).
  split; [exact Hin|]. split; [exact Hdir|].
  destruct (predict_unloadable_feature_file (H:=demo) features_dir checkpoint_file
              output_dir (Some (lit "res")) world_bad_entry bad_entry Hin)
    as (Hr & Hfs & _).
  - intros sample (b & Hb & _). rewrite Hdir in Hb. discriminate.
  - split; [exact Hr|exact Hfs].
Defined.

(** X7, on the CNN world: the report has the three keys, and its
    predictions have two entries at most, with distinct keys. *)
Lemma predict_report_shape_witness :
  demo_run world_cnn = (Ok Done, (demo_run world_cnn).2)
  /\ exists results labels,
       fs (demo_run world_cnn).2 !! results_path = Some (File (Json (JObj results)))
       /\ results.*1 = [lit "predictions"; lit "checkpoint_path"; lit "model"]
       /\ dict_get (lit "predictions") results = Some (JObj labels)
       /\ NoDup labels.*1
       /\ length labels <= 2.
Proof.
  split; [exact world_cnn_done|].
  destruct (predict_report_shape (H:=demo) features_dir checkpoint_file output_dir
              (Some (lit "res")) world_cnn _ world_cnn_done)
    as (data & preds & results & labels & _ & Hfs & Hkeys & Hget & Hnd & _ & _ & Hlen & _).
  exists results, labels. split_and!; [exact Hfs|exact Hkeys|exact Hget|exact Hnd|].
  etrans; [exact Hlen|]. vm_compute. lia.
Defined.


(** X9, on the two samples: the model returns one row for each image,
    and there are two predictions. *)
Lemma cnn_predictions_count_witness :
  predictions_of Cnn dataset01 (demo_ck "morphoclass.models.CNN")
  = Ok (PArray (NdArray [2] [0%Z; 1%Z]))
  /\ iter_predictions (PArray (NdArray [2] [0%Z; 1%Z])) = Ok [scalar 0%Z; scalar 1%Z]
  /\ exists outputs : list (ndarray Z),
       length outputs = 2
       /\ length [scalar 0%Z; scalar 1%Z] = sum_list ((fun y => hd 0 (shape y)) <$> outputs).
Proof.
  assert (predictions_of Cnn dataset01 (demo_ck "morphoclass.models.CNN")
          = Ok (PArray (NdArray [2] [0%Z; 1%Z]))) as Hp by (vm_compute; reflexivity).
  assert (iter_predictions (PArray (NdArray [2] [0%Z; 1%Z])) = Ok [scalar 0%Z; scalar 1%Z])
    as Hit by (vm_compute; reflexivity).
  split; [exact Hp|]. split; [exact Hit|].
  destruct (cnn_predictions_count (H:=demo) dataset01 (demo_ck "morphoclass.models.CNN")
              _ _ Hp Hit) as (model & outputs & _ & _ & Hlen & Hcount & _).
  exists outputs. split; [exact Hlen|exact Hcount].
Defined.

(** X11, on the two samples with a ManNet checkpoint: the model returns
    a vector of two logits for each sample. *)
Lemma gnn_outputs_witness :
  predictions_of Gnn dataset01 (demo_ck "ManNet") = Ok (PArray (NdArray [2] [0%Z; 1%Z]))
  /\ exists labels,
       labels_of dataset01 (PArray (NdArray [2] [0%Z; 1%Z])) = Ok labels
       /\ exists c, predict_gnn dataset01 (demo_ck "ManNet")
                    = Ok (NdArray [2; c] [3%Z; 2%Z; 1%Z; 5%Z]).
Proof.
  assert (predictions_of Gnn dataset01 (demo_ck "ManNet")
          = Ok (PArray (NdArray [2] [0%Z; 1%Z]))) as Hp by (vm_compute; reflexivity).
  split; [exact Hp|].
  assert (labels_of dataset01 (PArray (NdArray [2] [0%Z; 1%Z]))
          = Ok [(lit "m0.swc", JStr (lit "L5_TPC_A")); (lit "m1.swc", JStr (lit "L5_UPC"))])
    as Hl by (vm_compute; reflexivity).
  eexists. split; [exact Hl|].
  destruct (gnn_outputs_are_vectors (H:=demo) dataset01 (demo_ck "ManNet") _ _ Hp Hl)
    as (model & outputs & c & _ & Hout & _ & _ & Hall & Hgnn).
  exists c. rewrite Hgnn. f_equal. f_equal.
  vm_compute in Hout. injection Hout as <-. reflexivity.
Defined.
